(** * leaders.js: the leaderboard tables of the EPC hoops site

    A shallow embedding of [src/leaders.js].  The script builds HTML tables
    with the DOM API ([makeTable]) and, once [epc_leaders.json] has been
    fetched and parsed, fills four regions of the page with one table each.

    - JavaScript values are the inductive [value]; the Number primitives the
      script calls ([toFixed], the Number-to-String conversion, truthiness)
      belong to the engine and are the operations of the class [JSNumber].
    - The DOM is a store of element objects addressed by references; the
      script's statements run in a state-and-exception monad over it, so an
      exception leaves behind whatever was mutated before it was thrown.
    - The promise chain is [main]: the fulfilment handler runs on the parsed
      document, and the rejection handler runs when anything before it
      failed. *)

From stdpp Require Import base list strings pretty.
From Stdlib Require Import ZArith Lia.

Set Default Proof Using "Type".
Set Warnings "-register-all".
Open Scope string_scope.
Open Scope list_scope.

(** ** Exceptions *)

Inductive error := TypeError | SyntaxError.

Inductive outcome (A : Type) :=
| Ok (a : A)
| Throw (e : error).
Arguments Ok {A} a.
Arguments Throw {A} e.

Definition obind {A B} (m : outcome A) (k : A -> outcome B) : outcome B :=
  match m with
  | Ok a => k a
  | Throw e => Throw e
  end.

Notation "'let?' x ':=' m 'in' k" := (obind m (fun x => k))
  (at level 10, x name, m at level 100, k at level 200).

Fixpoint omap {A B} (f : A -> outcome B) (xs : list A) : outcome (list B) :=
  match xs with
  | [] => Ok []
  | x :: rest =>
      let? y := f x in
      let? ys := omap f rest in
      Ok (y :: ys)
  end.

(** ** Numbers

    The engine's Number type and the primitives the script uses on it. *)

Class JSNumber (number : Type) := {
  (** the Number value of a natural number (array indices, [i + 1]) *)
  number_of_nat : nat -> number;
  (** Number::toString, as used by String conversion *)
  Number_toString : number -> string;
  (** Number.prototype.toFixed(digits), for the digit counts the script uses *)
  Number_toFixed : number -> nat -> string;
  (** ToBoolean on a Number: false for 0 and NaN *)
  number_truthy : number -> bool
}.

(** Integral Numbers: enough to run the script on documents whose numbers are
    integers small enough to be exact and printed in plain decimal form. *)
#[export] Instance int_number : JSNumber Z := {
  number_of_nat := Z.of_nat;
  Number_toString := pretty;
  Number_toFixed z digits :=
    if digits is 0%nat then pretty z
    else pretty z +:+ "." +:+ String.concat "" (replicate digits "0");
  number_truthy z := negb (Z.eqb z 0)
}.

(** ** Values *)

Section Values.
Context {number : Type} `{JSNumber number}.

Inductive value :=
| VUndefined
| VNull
| VBool (b : bool)
| VNum (n : number)
| VStr (s : string)
| VArr (xs : list value)
| VObj (fields : list (string * value)).

(** The members of a parsed JSON object, in the order of the text; when a
    key is repeated the last member wins, as in [JSON.parse]. *)
Fixpoint obj_get (k : string) (fields : list (string * value)) : option value :=
  match fields with
  | [] => None
  | (k', v) :: rest =>
      match obj_get k rest with
      | Some w => Some w
      | None => if String.eqb k k' then Some v else None
      end
  end.

(** [v.k] for the data keys the script reads.  None of them is a property of
    a built-in prototype, so on an object only its own members count and on
    any other value except [null] and [undefined] the result is
    [undefined]. *)
Definition get_prop (v : value) (k : string) : outcome value :=
  match v with
  | VUndefined | VNull => Throw TypeError
  | VObj fields => Ok (default VUndefined (obj_get k fields))
  | _ => Ok VUndefined
  end.

(** [v?.k] *)
Definition get_prop_opt (v : value) (k : string) : outcome value :=
  match v with
  | VUndefined | VNull => Ok VUndefined
  | _ => get_prop v k
  end.

(** ToBoolean *)
Definition truthy (v : value) : bool :=
  match v with
  | VUndefined | VNull => false
  | VBool b => b
  | VNum n => number_truthy n
  | VStr s => negb (String.eqb s "")
  | VArr _ | VObj _ => true
  end.

(** [a || b] with [b] already a value *)
Definition or_else (a b : value) : value := if truthy a then a else b.

(** ToString.  An array joins its elements with commas, [null] and
    [undefined] elements giving the empty string.  A parsed object has no
    callable member: with an own [toString] member the conversion finds no
    method returning a primitive and throws, without one it reaches
    [Object.prototype.toString].  The engine's limit on the depth of
    nested arrays (a RangeError from the join) is not modelled. *)
Fixpoint to_string (v : value) : outcome string :=
  match v with
  | VUndefined => Ok "undefined"
  | VNull => Ok "null"
  | VBool b => Ok (if b then "true" else "false")
  | VNum n => Ok (Number_toString n)
  | VStr s => Ok s
  | VArr xs =>
      let? parts := omap (fun x =>
        match x with
        | VUndefined | VNull => Ok ""
        | _ => to_string x
        end) xs in
      Ok (String.concat "," parts)
  | VObj fields =>
      match obj_get "toString" fields with
      | Some _ => Throw TypeError
      | None => Ok "[object Object]"
      end
  end.

(** The conversion of an assigned value to the nullable string of
    [textContent]: [null] and [undefined] become the empty string. *)
Definition text_of (v : value) : outcome string :=
  match v with
  | VUndefined | VNull => Ok ""
  | _ => to_string v
  end.

(** [v.toFixed(digits)]: only a Number has the method. *)
Definition toFixed (v : value) (digits : nat) : outcome string :=
  match v with
  | VNum n => Ok (Number_toFixed n digits)
  | _ => Throw TypeError
  end.

(** [Array.prototype.map] with the index passed to the callback. *)
Fixpoint map_from {A} (f : value -> nat -> outcome A) (i : nat) (xs : list value)
  : outcome (list A) :=
  match xs with
  | [] => Ok []
  | x :: rest =>
      let? y := f x i in
      let? ys := map_from f (S i) rest in
      Ok (y :: ys)
  end.

(** [v.map(f)]: a value that is not an array has no callable [map]. *)
Definition array_map {A} (v : value) (f : value -> nat -> outcome A) : outcome (list A) :=
  match v with
  | VArr xs => map_from f 0 xs
  | _ => Throw TypeError
  end.

End Values.
Arguments value number : clear implicits.

(** ** The DOM store

    Element objects live in a store and are addressed by references, so that
    an element the script holds on to stays the same object whatever happens
    to the tree around it.  Only what the script reads or writes is kept of
    an element: its tag, its [id], its inline style and its child nodes. *)

Abbreviation ref := nat (only parsing).

Inductive child :=
| CText (s : string)
| CElem (r : ref).

Record element := Element {
  tag : string;
  el_id : option string;
  style : list (string * string);
  children : list child
}.

Record dom := Dom {
  heap : list element;
  root : ref;
  console : list (string * error)
}.

Definition set_heap (d : dom) (h : list element) : dom :=
  Dom h (root d) (console d).

Definition with_children (kids : list child) (e : element) : element :=
  Element (tag e) (el_id e) (style e) kids.

Definition push_child (c : child) (e : element) : element :=
  with_children (children e ++ [c]) e.

Fixpoint style_set (k v : string) (decls : list (string * string)) : list (string * string) :=
  match decls with
  | [] => [(k, v)]
  | (k', v') :: rest =>
      if String.eqb k k' then (k, v) :: rest else (k', v') :: style_set k v rest
  end.

Definition with_style (k v : string) (e : element) : element :=
  Element (tag e) (el_id e) (style_set k v (style e)) (children e).

(** A string replaces all children by one text node, the empty string by
    none. *)
Definition text_children (s : string) : list child :=
  if String.eqb s "" then [] else [CText s].

Fixpoint first_some {A B} (f : A -> option B) (xs : list A) : option B :=
  match xs with
  | [] => None
  | x :: rest =>
      match f x with
      | Some b => Some b
      | None => first_some f rest
      end
  end.

(** The first element in tree order that carries the id.  A tree of the
    store is no deeper than the store is long, which bounds the fuel. *)
Fixpoint find_id (fuel : nat) (h : list element) (id : string) (c : child) : option ref :=
  match fuel, c with
  | S f, CElem r =>
      match h !! r with
      | Some e =>
          if decide (el_id e = Some id) then Some r
          else first_some (find_id f h id) (children e)
      | None => None
      end
  | _, _ => None
  end.

(** ** The monad of script statements *)

Definition M (A : Type) : Type := dom -> outcome A * dom.

Definition ret {A} (a : A) : M A := fun d => (Ok a, d).

Definition bind {A B} (m : M A) (k : A -> M B) : M B :=
  fun d =>
    match m d with
    | (Ok a, d') => k a d'
    | (Throw e, d') => (Throw e, d')
    end.

Definition lift {A} (o : outcome A) : M A := fun d => (o, d).

Definition throw {A} (e : error) : M A := fun d => (Throw e, d).

Definition catch {A} (m : M A) (handler : error -> M A) : M A :=
  fun d =>
    match m d with
    | (Ok a, d') => (Ok a, d')
    | (Throw e, d') => handler e d'
    end.

Notation "'let*' x ':=' m 'in' k" := (bind m (fun x => k))
  (at level 10, x name, m at level 100, k at level 200).
Notation "'exec' m 'in' k" := (bind m (fun _ => k))
  (at level 10, m at level 100, k at level 200).

Fixpoint forEach {A} (xs : list A) (f : A -> M unit) : M unit :=
  match xs with
  | [] => ret tt
  | x :: rest => exec f x in forEach rest f
  end.

(** *** DOM primitives *)

(** A write to the element at [r].  The script only writes to elements it
    has looked up or created, which are in the store. *)
Definition update (r : ref) (f : element -> element) : M unit :=
  fun d => (Ok tt, set_heap d (alter f r (heap d))).

(** [document.createElement(tag)] *)
Definition createElement (t : string) : M ref :=
  fun d => (Ok (length (heap d)), set_heap d (heap d ++ [Element t None [] []])).

(** [document.getElementById(id)] *)
Definition getElementById (id : string) : M (option ref) :=
  fun d => (Ok (find_id (S (length (heap d))) (heap d) id (CElem (root d))), d).

(** [r.style.k = v] *)
Definition set_style (r : ref) (k v : string) : M unit :=
  update r (with_style k v).

(** [parent.appendChild(c)].  Every node the script appends is one it has
    just created, so it has no previous parent to be removed from. *)
Definition appendChild (parent c : ref) : M unit :=
  update parent (push_child (CElem c)).

(** [r.innerHTML = ""] *)
Definition clear_innerHTML (r : ref) : M unit :=
  update r (with_children []).

(** [console.error(label, err)] *)
Definition console_error (label : string) (err : error) : M unit :=
  fun d => (Ok tt, Dom (heap d) (root d) (console d ++ [(label, err)])).

Section Script.
Context {number : Type} `{JSNumber number}.

Local Abbreviation value := (value number).

(** [r.textContent = v] *)
Definition set_textContent (r : ref) (v : value) : M unit :=
  let* s := lift (text_of v) in
  update r (with_children (text_children s)).

(** ** makeTable *)

Definition makeTable (headers : list value) (rows : list (list value)) : M ref :=
  let* table := createElement "table" in
  exec set_style table "borderCollapse" "collapse" in
  exec set_style table "marginBottom" "12px" in
  exec set_style table "fontSize" "0.9rem" in

  let* thead := createElement "thead" in
  let* headRow := createElement "tr" in
  exec forEach headers (fun h =>
    let* th := createElement "th" in
    exec set_textContent th h in
    exec set_style th "borderBottom" "1px solid #ccc" in
    exec set_style th "padding" "4px 6px" in
    exec set_style th "textAlign" "left" in
    appendChild headRow th) in
  exec appendChild thead headRow in
  exec appendChild table thead in

  let* tbody := createElement "tbody" in
  exec forEach rows (fun row =>
    let* tr := createElement "tr" in
    exec forEach row (fun cell =>
      let* td := createElement "td" in
      exec set_textContent td cell in
      exec set_style td "padding" "3px 6px" in
      exec set_style td "borderBottom" "1px solid #eee" in
      appendChild tr td) in
    appendChild tbody tr) in
  exec appendChild table tbody in

  ret table.

(** ** The fulfilment handler *)

(** [data.top?.nested || []] *)
Definition leaderboard (data : value) (top nested : string) : outcome value :=
  let? t := get_prop data top in
  let? v := get_prop_opt t nested in
  Ok (or_else v (VArr [])).

(** [i + 1] for the index [i] of an array element *)
Definition rank (i : nat) : value := VNum (number_of_nat (i + 1)).

(** [`${v} unit`] *)
Definition with_unit (v : value) (unit : string) : outcome value :=
  let? s := to_string v in
  Ok (VStr (s +:+ " " +:+ unit)).

Definition ppg_row (p : value) (i : nat) : outcome (list value) :=
  let? player := get_prop p "player" in
  let? team := get_prop p "team" in
  let? ppg := get_prop p "ppg" in
  let? fixed := toFixed ppg 1 in
  let? ppg_cell := with_unit (VStr fixed) "ppg" in
  let? pts := get_prop p "pts" in
  let? pts_cell := with_unit pts "pts" in
  let? gp := get_prop p "gp" in
  let? gp_cell := with_unit gp "gp" in
  Ok [rank i; player; team; ppg_cell; pts_cell; gp_cell].

Definition pts_row (p : value) (i : nat) : outcome (list value) :=
  let? player := get_prop p "player" in
  let? team := get_prop p "team" in
  let? pts := get_prop p "pts" in
  let? pts_cell := with_unit pts "pts" in
  let? gp := get_prop p "gp" in
  let? gp_cell := with_unit gp "gp" in
  Ok [rank i; player; team; pts_cell; gp_cell].

Definition threes_row (p : value) (i : nat) : outcome (list value) :=
  let? player := get_prop p "player" in
  let? team := get_prop p "team" in
  let? threes := get_prop p "threes" in
  let? gp := get_prop p "gp" in
  let? gp_cell := with_unit gp "gp" in
  Ok [rank i; player; team; threes; gp_cell].

Definition team_row (t : value) (i : nat) : outcome (list value) :=
  let? team := get_prop t "team" in
  let? ppg := get_prop t "ppg" in
  let? fixed := toFixed ppg 1 in
  let? ppg_cell := with_unit (VStr fixed) "ppg" in
  let? pts_for := get_prop t "pts_for" in
  let? pts_cell := with_unit pts_for "pts" in
  let? gp := get_prop t "gp" in
  let? gp_cell := with_unit gp "gp" in
  Ok [rank i; team; ppg_cell; pts_cell; gp_cell].

Definition ppg_headers : list value :=
  [VStr "#"; VStr "Player"; VStr "Team"; VStr "PPG"; VStr "Total Pts"; VStr "GP"].
Definition pts_headers : list value :=
  [VStr "#"; VStr "Player"; VStr "Team"; VStr "Total Pts"; VStr "GP"].
Definition threes_headers : list value :=
  [VStr "#"; VStr "Player"; VStr "Team"; VStr "3PM"; VStr "GP"].
Definition team_headers : list value :=
  [VStr "#"; VStr "Team"; VStr "PPG"; VStr "Total Pts"; VStr "GP"].

(** [if (div) { div.innerHTML = ""; const rows = board.map(row); 
    div.appendChild(makeTable(headers, rows)); }] *)
Definition render_ppg (ppgDiv : option ref) (ppg : value) : M unit :=
  match ppgDiv with
  | Some ppgDiv =>
      exec clear_innerHTML ppgDiv in
      let* rows := lift (array_map ppg ppg_row) in
      let* table := makeTable ppg_headers rows in
      appendChild ppgDiv table
  | None => ret tt
  end.

Definition render_pts (ptsDiv : option ref) (pts : value) : M unit :=
  match ptsDiv with
  | Some ptsDiv =>
      exec clear_innerHTML ptsDiv in
      let* rows := lift (array_map pts pts_row) in
      let* table := makeTable pts_headers rows in
      appendChild ptsDiv table
  | None => ret tt
  end.

Definition render_threes (threesDiv : option ref) (threes : value) : M unit :=
  match threesDiv with
  | Some threesDiv =>
      exec clear_innerHTML threesDiv in
      let* rows := lift (array_map threes threes_row) in
      let* table := makeTable threes_headers rows in
      appendChild threesDiv table
  | None => ret tt
  end.

Definition render_teams (teamsDiv : option ref) (teamOff : value) : M unit :=
  match teamsDiv with
  | Some teamsDiv =>
      exec clear_innerHTML teamsDiv in
      let* rows := lift (array_map teamOff team_row) in
      let* table := makeTable team_headers rows in
      appendChild teamsDiv table
  | None => ret tt
  end.

(** Lines 41-44: the timestamp. *)
Definition update_timestamp (data : value) : M unit :=
  let* updatedEl := getElementById "leaders-updated" in
  match updatedEl with
  | Some updatedEl =>
      let* generated_at := lift (get_prop data "generated_at") in
      if truthy generated_at then set_textContent updatedEl generated_at
      else ret tt
  | None => ret tt
  end.

(** Lines 46-112: the four leaderboards. *)
Definition render_leaders (data : value) : M unit :=
  let* ppgDiv := getElementById "leaders-ppg" in
  let* ptsDiv := getElementById "leaders-pts" in
  let* threesDiv := getElementById "leaders-threes" in
  let* teamsDiv := getElementById "leaders-teams" in

  let* ppg := lift (leaderboard data "player_leaders" "points_per_game") in
  let* pts := lift (leaderboard data "player_leaders" "points_total") in
  let* threes := lift (leaderboard data "player_leaders" "three_pointers_made") in
  let* teamOff := lift (leaderboard data "team_leaders" "offense_points_per_game") in

  exec render_ppg ppgDiv ppg in
  exec render_pts ptsDiv pts in
  exec render_threes threesDiv threes in
  render_teams teamsDiv teamOff.

Definition then_handler (data : value) : M unit :=
  exec update_timestamp data in
  render_leaders data.

(** ** The rejection handler and the promise chain *)

Definition error_message : string := "Error loading leaders data.".

Definition catch_handler (err : error) : M unit :=
  exec console_error "Error loading leaders:" err in
  let* container := getElementById "leaders-container" in
  match container with
  | Some container => set_textContent container (VStr error_message)
  | None => ret tt
  end.

(** What [fetch] and [r.json()] settle to: the request fails, the body is
    not JSON, or the parsed document. *)
Inductive response :=
| NetworkFailure
| BadJSON
| Document (data : value).

Definition fetch_json (r : response) : M value :=
  match r with
  | NetworkFailure => throw TypeError
  | BadJSON => throw SyntaxError
  | Document data => ret data
  end.

(** [fetch(..).then(r => r.json()).then(data => ..).catch(err => ..)] *)
Definition main (r : response) : M unit :=
  catch (let* data := fetch_json r in then_handler data) catch_handler.

End Script.

(** ** Reading the store back

    A snapshot is the tree below a node with the references forgotten: what
    a serialisation of the node shows. *)

Inductive tree :=
| TText (s : string)
| TElem (tg : string) (id : option string) (st : list (string * string)) (kids : list tree).

Fixpoint snap (fuel : nat) (h : list element) (c : child) : option tree :=
  match c with
  | CText s => Some (TText s)
  | CElem r =>
      match fuel with
      | O => None
      | S f =>
          e ← h !! r;
          kids ← mapM (snap f h) (children e);
          Some (TElem (tag e) (el_id e) (style e) kids)
      end
  end.

(** The [textContent] of a node. *)
Fixpoint tree_text (t : tree) : string :=
  match t with
  | TText s => s
  | TElem _ _ _ kids => String.concat "" (map tree_text kids)
  end.

Definition tree_kids (t : tree) : list tree :=
  match t with
  | TText _ => []
  | TElem _ _ _ kids => kids
  end.

Definition has_tag (name : string) (t : tree) : bool :=
  match t with
  | TText _ => false
  | TElem tg _ _ _ => String.eqb tg name
  end.

(** The rows of the table section called [name] ([thead] or [tbody]). *)
Definition section_rows (name : string) (table : tree) : list tree :=
  flat_map tree_kids (List.filter (has_tag name) (tree_kids table)).

Definition header_cells (table : tree) : list tree :=
  flat_map tree_kids (section_rows "thead" table).

Definition body_rows (table : tree) : list tree :=
  section_rows "tbody" table.

Definition header_texts (table : tree) : list string :=
  map tree_text (header_cells table).

Definition body_texts (table : tree) : list (list string) :=
  map (fun tr => map tree_text (tree_kids tr)) (body_rows table).

(** ** The table [makeTable] is expected to build *)

Definition table_style : list (string * string) :=
  [("borderCollapse", "collapse"); ("marginBottom", "12px"); ("fontSize", "0.9rem")].
Definition th_style : list (string * string) :=
  [("borderBottom", "1px solid #ccc"); ("padding", "4px 6px"); ("textAlign", "left")].
Definition td_style : list (string * string) :=
  [("padding", "3px 6px"); ("borderBottom", "1px solid #eee")].

Definition text_nodes (s : string) : list tree :=
  if String.eqb s "" then [] else [TText s].

Definition th_tree (s : string) : tree := TElem "th" None th_style (text_nodes s).
Definition td_tree (s : string) : tree := TElem "td" None td_style (text_nodes s).
Definition tr_tree (cells : list tree) : tree := TElem "tr" None [] cells.

Definition table_tree (hs : list string) (rs : list (list string)) : tree :=
  TElem "table" None table_style
    [TElem "thead" None [] [tr_tree (map th_tree hs)];
     TElem "tbody" None [] (map (fun r => tr_tree (map td_tree r)) rs)].

(** The elements one call allocates, in allocation order, when the store
    held [n] elements before. *)

Definition th_elem (s : string) : element := Element "th" None th_style (text_children s).
Definition td_elem (s : string) : element := Element "td" None td_style (text_children s).

Definition refs_from (base len : nat) : list child := map CElem (seq base len).

Definition row_block (base : nat) (texts : list string) : list element :=
  Element "tr" None [] (refs_from (S base) (length texts)) :: map td_elem texts.

Fixpoint rows_block (base : nat) (rs : list (list string)) : list element :=
  match rs with
  | [] => []
  | r :: rest => row_block base r ++ rows_block (base + S (length r)) rest
  end.

Fixpoint row_refs (base : nat) (rs : list (list string)) : list child :=
  match rs with
  | [] => []
  | r :: rest => CElem base :: row_refs (base + S (length r)) rest
  end.

Definition table_block (n : nat) (hs : list string) (rs : list (list string)) : list element :=
  let tbody := n + 3 + length hs in
  [Element "table" None table_style [CElem (n + 1); CElem tbody];
   Element "thead" None [] [CElem (n + 2)];
   Element "tr" None [] (refs_from (n + 3) (length hs))]
  ++ map th_elem hs
  ++ [Element "tbody" None [] (row_refs (S tbody) rs)]
  ++ rows_block (S tbody) rs.

Definition push_children (cs : list child) (e : element) : element :=
  with_children (children e ++ cs) e.

(** [blk] sits in the store [h] from reference [t] on. *)
Definition block_at (h : list element) (t : ref) (blk : list element) : Prop :=
  forall k e, blk !! k = Some e -> h !! (t + k) = Some e.

(** What one leaderboard section does to the store when it completes: with
    no region nothing, with a region [d] the region keeps nothing but the new
    table, whose elements are appended to the store. *)
Definition sec_step (step : option ref * list string * list (list string))
  (h h' : list element) : Prop :=
  match step with
  | (None, _, _) => h' = h
  | (Some d, hs, rs) =>
      h' = alter (with_children [CElem (length h)]) d h ++ table_block (length h) hs rs
  end.

Fixpoint sec_steps (steps : list (option ref * list string * list (list string)))
  (h h' : list element) : Prop :=
  match steps with
  | [] => h' = h
  | step :: rest => exists hm, sec_step step h hm /\ sec_steps rest hm h'
  end.

Section Sections.
Context {number : Type} `{JSNumber number}.
Local Abbreviation value := (value number).

(** The callbacks of the loops of [makeTable], by name. *)
Definition th_callback (headRow : ref) (h : value) : M unit :=
  let* th := createElement "th" in
  exec set_textContent th h in
  exec set_style th "borderBottom" "1px solid #ccc" in
  exec set_style th "padding" "4px 6px" in
  exec set_style th "textAlign" "left" in
  appendChild headRow th.

Definition td_callback (tr : ref) (cell : value) : M unit :=
  let* td := createElement "td" in
  exec set_textContent td cell in
  exec set_style td "padding" "3px 6px" in
  exec set_style td "borderBottom" "1px solid #eee" in
  appendChild tr td.

Definition tr_callback (tbody : ref) (row : list value) : M unit :=
  let* tr := createElement "tr" in
  exec forEach row (td_callback tr) in
  appendChild tbody tr.

(** The outcome of a call whatever the cells are: it throws exactly when the
    conversion of a header or of a cell does, headers first. *)
Definition makeTable_outcome (headers : list value) (rows : list (list value))
  (fresh : ref) : outcome ref :=
  match omap text_of headers with
  | Throw e => Throw e
  | Ok _ =>
      match omap (omap text_of) rows with
      | Throw e => Throw e
      | Ok _ => Ok fresh
      end
  end.

(** What a caller can observe of a call: the exception, or the snapshot of
    the returned table. *)
Definition observe (result : outcome ref * dom) : outcome (option tree) :=
  match result with
  | (Ok t, d) => Ok (snap 4 (heap d) (CElem t))
  | (Throw e, _) => Throw e
  end.

(** The cells the data model of a table allows: numbers and strings. *)
Inductive scalar :=
| SNum (n : number)
| SStr (s : string).

Definition value_of_scalar (c : scalar) : value :=
  match c with
  | SNum n => VNum n
  | SStr s => VStr s
  end.

(** The string form of a scalar. *)
Definition scalar_text (c : scalar) : string :=
  match c with
  | SNum n => Number_toString n
  | SStr s => s
  end.

(** The four leaderboards. *)
Inductive board := PointsPerGame | PointsTotal | ThreePointers | TeamOffense.

Definition boards : list board :=
  [PointsPerGame; PointsTotal; ThreePointers; TeamOffense].

Definition region_id (b : board) : string :=
  match b with
  | PointsPerGame => "leaders-ppg"
  | PointsTotal => "leaders-pts"
  | ThreePointers => "leaders-threes"
  | TeamOffense => "leaders-teams"
  end.

Definition board_value (b : board) (data : value) : outcome value :=
  match b with
  | PointsPerGame => leaderboard data "player_leaders" "points_per_game"
  | PointsTotal => leaderboard data "player_leaders" "points_total"
  | ThreePointers => leaderboard data "player_leaders" "three_pointers_made"
  | TeamOffense => leaderboard data "team_leaders" "offense_points_per_game"
  end.

Definition board_row (b : board) : value -> nat -> outcome (list value) :=
  match b with
  | PointsPerGame => ppg_row
  | PointsTotal => pts_row
  | ThreePointers => threes_row
  | TeamOffense => team_row
  end.

Definition board_headers (b : board) : list string :=
  match b with
  | PointsPerGame => ["#"; "Player"; "Team"; "PPG"; "Total Pts"; "GP"]
  | PointsTotal => ["#"; "Player"; "Team"; "Total Pts"; "GP"]
  | ThreePointers => ["#"; "Player"; "Team"; "3PM"; "GP"]
  | TeamOffense => ["#"; "Team"; "PPG"; "Total Pts"; "GP"]
  end.

Definition render_board (b : board) : option ref -> value -> M unit :=
  match b with
  | PointsPerGame => render_ppg
  | PointsTotal => render_pts
  | ThreePointers => render_threes
  | TeamOffense => render_teams
  end.

(** The shape the four blocks of the handler share. *)
Definition render_section (div : option ref) (v : value)
  (row : value -> nat -> outcome (list value)) (headers : list value) : M unit :=
  match div with
  | Some div =>
      exec clear_innerHTML div in
      let* rows := lift (array_map v row) in
      let* table := makeTable headers rows in
      appendChild div table
  | None => ret tt
  end.

(** The element a leaderboard's region is, when the handler looks it up. *)
Definition region (b : board) (d : dom) : option ref :=
  find_id (S (length (heap d))) (heap d) (region_id b) (CElem (root d)).

(** The texts of the rows a leaderboard of the document gives. *)
Definition board_texts (b : board) (data : value) : outcome (list (list string)) :=
  let? v := board_value b data in
  let? rows := array_map v (board_row b) in
  omap (omap text_of) rows.

End Sections.

Section Documents.
Context {number : Type} `{JSNumber number}.
Local Abbreviation value := (value number).


Definition top_key (b : board) : string :=
  match b with
  | TeamOffense => "team_leaders"
  | _ => "player_leaders"
  end.

Definition nested_key (b : board) : string :=
  match b with
  | PointsPerGame => "points_per_game"
  | PointsTotal => "points_total"
  | ThreePointers => "three_pointers_made"
  | TeamOffense => "offense_points_per_game"
  end.


(** A flat record: every member is a number or a string. *)
Definition flat_record (fields : list (string * value)) : Prop :=
  forall k v, obj_get k fields = Some v -> exists c, v = value_of_scalar c.

(** The leaderboards whose rows call [toFixed] on [ppg]. *)
Definition needs_ppg (b : board) : bool :=
  match b with
  | PointsPerGame | TeamOffense => true
  | PointsTotal | ThreePointers => false
  end.

(** A record the row of leaderboard [b] can be built from: a flat record,
    with a Number for [ppg] where the row formats it. *)
Definition well_formed_record (b : board) (x : value) : Prop :=
  exists fields,
    x = VObj fields /\
    flat_record fields /\
    (needs_ppg b = true -> exists n, obj_get "ppg" fields = Some (VNum n)).

(** A document as the feed is meant to be: an object whose timestamp, when
    present, is a number or a string and whose leaderboards, present or not,
    come out as arrays of well-formed records. *)
Definition well_formed_feed (data : value) : Prop :=
  exists fields,
    data = VObj fields /\
    (forall v, obj_get "generated_at" fields = Some v -> exists c, v = value_of_scalar c) /\
    (forall b, exists xs,
       board_value b data = Ok (VArr xs) /\ Forall (well_formed_record b) xs).

End Documents.

(** ** A page and some documents to run the script on *)

Definition demo_page : dom :=
  Dom [ Element "body" None [] [CElem 1; CElem 2];
        Element "span" (Some "leaders-updated") [] [CText "never"];
        Element "div" (Some "leaders-container") [] [CElem 3; CElem 4; CElem 5; CElem 6];
        Element "div" (Some "leaders-ppg") [] [CText "Loading"];
        Element "div" (Some "leaders-pts") [] [CText "Loading"];
        Element "div" (Some "leaders-threes") [] [CText "Loading"];
        Element "div" (Some "leaders-teams") [] [CText "Loading"] ]
      0 [].

(** The same page without the region of the three-pointers leaderboard. *)
Definition page_without_threes : dom :=
  Dom [ Element "body" None [] [CElem 1; CElem 2];
        Element "span" (Some "leaders-updated") [] [CText "never"];
        Element "div" (Some "leaders-container") [] [CElem 3; CElem 4; CElem 5];
        Element "div" (Some "leaders-ppg") [] [CText "Loading"];
        Element "div" (Some "leaders-pts") [] [CText "Loading"];
        Element "div" (Some "leaders-teams") [] [CText "Loading"] ]
      0 [].

Definition player_a : list (string * value Z) :=
  [("player", VStr "A. Example"); ("team", VStr "XYZ"); ("ppg", VNum 23%Z);
   ("pts", VNum 812%Z); ("gp", VNum 35%Z); ("threes", VNum 70%Z)].

Definition player_b : list (string * value Z) :=
  [("player", VStr "B. Sample"); ("team", VStr "ABC"); ("ppg", VNum 21%Z);
   ("pts", VNum 630%Z); ("gp", VNum 30%Z); ("threes", VNum 95%Z)].

Definition team_xyz : list (string * value Z) :=
  [("team", VStr "XYZ"); ("ppg", VNum 88%Z); ("pts_for", VNum 3080%Z); ("gp", VNum 35%Z)].

Definition demo_players : value Z :=
  VObj [("points_per_game", VArr [VObj player_a; VObj player_b]);
        ("points_total", VArr [VObj player_a; VObj player_b]);
        ("three_pointers_made", VArr [VObj player_b; VObj player_a])].

Definition demo_doc : value Z :=
  VObj [("generated_at", VStr "2024-01-05");
        ("player_leaders", demo_players);
        ("team_leaders", VObj [("offense_points_per_game", VArr [VObj team_xyz])])].

Definition doc_without_teams : list (string * value Z) :=
  [("generated_at", VStr "2024-01-05"); ("player_leaders", demo_players)].

(** A points-per-game record that has everything but [ppg]. *)
Definition record_without_ppg : list (string * value Z) :=
  [("player", VStr "A. Example"); ("team", VStr "XYZ");
   ("pts", VNum 812%Z); ("gp", VNum 35%Z)].

Definition doc_record_without_ppg : value Z :=
  VObj [("player_leaders", VObj [("points_per_game", VArr [VObj record_without_ppg])])].

(** A record that has nothing but [ppg]. *)
Definition record_only_ppg : list (string * value Z) := [("ppg", VNum 23%Z)].

(** The table of the end-to-end scenario: the headers of the points-per-game
    leaderboard and one row. *)
Definition scenario_headers : list string :=
  ["#"; "Player"; "Team"; "PPG"; "Total Pts"; "GP"].

Definition scenario_rows : list (list (@scalar Z)) :=
  [[SNum 1%Z; SStr "A. Example"; SStr "XYZ"; SStr "23.4 ppg"; SStr "812 pts"; SStr "35 gp"]].

(** ** More of the script's behaviour: supporting definitions *)

Section Behaviour.
Context {number : Type} `{JSNumber number}.
Local Abbreviation value := (value number).

(** A primitive value: anything but an array or an object. *)
Definition primitive (v : value) : bool :=
  match v with
  | VArr _ | VObj _ => false
  | _ => true
  end.

(** The position of a leaderboard in the order the handler renders them. *)
Definition board_index (b : board) : nat :=
  match b with
  | PointsPerGame => 0
  | PointsTotal => 1
  | ThreePointers => 2
  | TeamOffense => 3
  end.

(** Sections run one after the other, as the handler runs its four. *)
Fixpoint run_boards (regs : board -> option ref) (vals : board -> value)
  (bs : list board) : M unit :=
  match bs with
  | [] => ret tt
  | b :: rest => exec render_board b (regs b) (vals b) in run_boards regs vals rest
  end.

(** The element the handler writes the timestamp to, and the one the
    rejection handler writes the message to. *)
Definition updated_element (d : dom) : option ref :=
  find_id (S (length (heap d))) (heap d) "leaders-updated" (CElem (root d)).

Definition container_element (d : dom) : option ref :=
  find_id (S (length (heap d))) (heap d) "leaders-container" (CElem (root d)).

(** A document that is neither an object nor [null]: a boolean, a number, a
    string or an array. *)
Definition not_a_record (v : value) : Prop :=
  match v with
  | VBool _ | VNum _ | VStr _ | VArr _ => True
  | VUndefined | VNull | VObj _ => False
  end.

(** The texts of the rows a section builds from the value of its
    leaderboard. *)
Definition section_texts (b : board) (v : value) : outcome (list (list string)) :=
  let? rows := array_map v (board_row b) in omap (omap text_of) rows.

Definition texts_shown (b : board) (v : value) : list (list string) :=
  match section_texts b v with
  | Ok rs => rs
  | Throw _ => []
  end.

(** The leaderboards rendered before and after a given one. *)
Definition earlier (b : board) : list board := take (board_index b) boards.
Definition later (b : board) : list board := drop (S (board_index b)) boards.

End Behaviour.

(** What is left of the outcome of a conversion when its value is dropped. *)
Definition conv_outcome {X} (o : outcome X) : outcome unit :=
  match o with
  | Ok _ => Ok tt
  | Throw e => Throw e
  end.

(** A statement that leaves the document root and the console alone. *)
Definition keeps_env {A} (m : M A) : Prop :=
  forall d, root (m d).2 = root d /\ console (m d).2 = console d.

(** A cell whose conversion to a string throws, inside an otherwise plain
    table. *)
Definition trap_cell : value Z := VObj [("toString", VNum 1%Z)].

(** Headers and rows with cells of every primitive kind, rows of different
    lengths included. *)
Definition primitive_headers : list (value Z) := [VStr "a"; VNull].
Definition primitive_rows : list (list (value Z)) :=
  [[VBool true; VUndefined; VNum 3%Z]; []; [VStr ""]].

(** A document whose total-points leaderboard is a string. *)
Definition doc_string_board : list (string * value Z) :=
  [("player_leaders", VObj [("points_total", VStr "oops")])].

(** A record whose [ppg] is a numeric string. *)
Definition record_string_ppg : list (string * value Z) :=
  [("player", VStr "A. Example"); ("ppg", VStr "23.4")].

(** A document whose player leaderboards are fine and whose team record
    lacks [ppg]. *)
Definition bad_team_board : value Z := VArr [VObj [("team", VStr "XYZ")]].

Definition doc_bad_team : value Z :=
  VObj [("player_leaders", demo_players);
        ("team_leaders", VObj [("offense_points_per_game", bad_team_board)])].

(** A page that has regions but no container for the error message. *)
Definition page_without_container : dom :=
  Dom [ Element "body" None [] [CElem 1; CElem 2];
        Element "div" (Some "leaders-ppg") [] [CText "Loading"];
        Element "div" (Some "leaders-teams") [] [CText "Loading"] ]
      0 [].

(** A page whose regions sit beside the container, not inside it. *)
Definition page_regions_beside : dom :=
  Dom [ Element "body" None []
          [CElem 1; CElem 2; CElem 3; CElem 4; CElem 5; CElem 6];
        Element "span" (Some "leaders-updated") [] [CText "never"];
        Element "div" (Some "leaders-container") [] [CText "Loading leaders"];
        Element "div" (Some "leaders-ppg") [] [CText "Loading"];
        Element "div" (Some "leaders-pts") [] [CText "Loading"];
        Element "div" (Some "leaders-threes") [] [CText "Loading"];
        Element "div" (Some "leaders-teams") [] [CText "Loading"] ]
      0 [].


(** ** Where an element sits with respect to the container *)

(** [reach_avoiding h c a r]: the element [r] is [a] or is reached from [a]
    by going down to children, never going down from the element [c]. *)
Inductive reach_avoiding (h : list element) (c : ref) : ref -> ref -> Prop :=
  | reach_here (r : ref) : reach_avoiding h c r r
  | reach_child (a : ref) (e : element) (b r : ref) :
      a <> c -> h !! a = Some e -> CElem b ∈ children e ->
      reach_avoiding h c b r -> reach_avoiding h c a r.

(** The id is carried inside the element [c] only: no element that carries
    it is reached from the root of the document without going down from
    [c]. *)
Definition inside_only (d : dom) (c : ref) (id : string) : Prop :=
  forall r e, heap d !! r = Some e -> el_id e = Some id ->
              ~ reach_avoiding (heap d) c (root d) r.

(** * Properties *)

(** ** The primitives on a store [h0 ++ blk] *)

Lemma push_children_nil e : push_children [] e = e.
Proof. destruct e. unfold push_children, with_children. simpl. by rewrite app_nil_r. Qed.

Lemma push_children_cons c cs e :
  push_children cs (push_child c e) = push_children (c :: cs) e.
Proof.
  unfold push_children, push_child, with_children. simpl.
  by rewrite <- app_assoc.
Qed.

Lemma refs_from_S base len :
  refs_from base (S len) = CElem base :: refs_from (S base) len.
Proof. reflexivity. Qed.

Lemma length_refs_from base len : length (refs_from base len) = len.
Proof. unfold refs_from. by rewrite length_map, length_seq. Qed.

Lemma alter_last {A} (f : A -> A) (l : list A) (x : A) :
  alter f (length l) (l ++ [x]) = l ++ [f x].
Proof.
  replace (length l) with (length l + 0) by lia.
  by rewrite alter_app_r.
Qed.

Lemma createElement_run t h0 blk rt cs :
  createElement t (Dom (h0 ++ blk) rt cs)
  = (Ok (length h0 + length blk), Dom (h0 ++ (blk ++ [Element t None [] []])) rt cs).
Proof. unfold createElement, set_heap. simpl. by rewrite length_app, app_assoc. Qed.

Lemma update_run k f h0 blk rt cs :
  update (length h0 + k) f (Dom (h0 ++ blk) rt cs)
  = (Ok tt, Dom (h0 ++ alter f k blk) rt cs).
Proof. unfold update, set_heap. simpl. by rewrite alter_app_r. Qed.

Lemma bind_run {A B} (m : M A) (k : A -> M B) d a d' :
  m d = (Ok a, d') -> bind m k d = k a d'.
Proof. intros E. unfold bind. by rewrite E. Qed.

Lemma bind_cases {A B} (m : M A) (k : A -> M B) d :
  bind m k d
  = match m d with
    | (Ok a, d') => k a d'
    | (Throw e, d') => (Throw e, d')
    end.
Proof. reflexivity. Qed.

Lemma bind_throw {A B} (m : M A) (k : A -> M B) d e d' :
  m d = (Throw e, d') -> bind m k d = (Throw e, d').
Proof. intros E. unfold bind. by rewrite E. Qed.

Lemma omap_length {A B} (f : A -> outcome B) xs ys :
  omap f xs = Ok ys -> length ys = length xs.
Proof.
  revert ys. induction xs as [|x xs IH]; intros ys; simpl.
  - by intros [= <-].
  - destruct (f x); simpl; [|done]. destruct (omap f xs); simpl; [|done].
    intros [= <-]. simpl. f_equal. by apply IH.
Qed.

Section MakeTable.
Context {number : Type} `{JSNumber number}.
Local Abbreviation value := (value number).

Lemma set_textContent_run k (v : value) s h0 blk rt cs :
  text_of v = Ok s ->
  set_textContent (length h0 + k) v (Dom (h0 ++ blk) rt cs)
  = (Ok tt, Dom (h0 ++ alter (with_children (text_children s)) k blk) rt cs).
Proof.
  intros E. unfold set_textContent, bind, lift. rewrite E. apply update_run.
Qed.

Lemma th_callback_run p (c : value) s h0 blk rt cs :
  text_of c = Ok s -> p < length blk ->
  th_callback (length h0 + p) c (Dom (h0 ++ blk) rt cs)
  = (Ok tt, Dom (h0 ++ (alter (push_child (CElem (length h0 + length blk))) p blk
                        ++ [th_elem s])) rt cs).
Proof.
  intros E Hp. unfold th_callback.
  erewrite bind_run by apply createElement_run.
  erewrite bind_run by (apply set_textContent_run, E).
  unfold set_style, appendChild.
  do 3 (erewrite bind_run by apply update_run).
  rewrite update_run. 
  rewrite !alter_last. rewrite alter_app_l by done. reflexivity.
Qed.

Lemma td_callback_run p (c : value) s h0 blk rt cs :
  text_of c = Ok s -> p < length blk ->
  td_callback (length h0 + p) c (Dom (h0 ++ blk) rt cs)
  = (Ok tt, Dom (h0 ++ (alter (push_child (CElem (length h0 + length blk))) p blk
                        ++ [td_elem s])) rt cs).
Proof.
  intros E Hp. unfold td_callback.
  erewrite bind_run by apply createElement_run.
  erewrite bind_run by (apply set_textContent_run, E).
  unfold set_style, appendChild.
  do 2 (erewrite bind_run by apply update_run).
  rewrite update_run.
  rewrite !alter_last. rewrite alter_app_l by done. reflexivity.
Qed.

(** A loop whose callback allocates one element and appends it to the
    element at [p] appends them all, in order. *)
Lemma forEach_cells (body : value -> M unit) (mk : string -> element) p h0 rt cs :
  (forall c s blk, text_of c = Ok s -> p < length blk ->
     body c (Dom (h0 ++ blk) rt cs)
     = (Ok tt, Dom (h0 ++ (alter (push_child (CElem (length h0 + length blk))) p blk
                           ++ [mk s])) rt cs)) ->
  forall cells texts blk,
    omap text_of cells = Ok texts -> p < length blk ->
    forEach cells body (Dom (h0 ++ blk) rt cs)
    = (Ok tt, Dom (h0 ++ (alter (push_children
                            (refs_from (length h0 + length blk) (length texts))) p blk
                          ++ map mk texts)) rt cs).
Proof.
  intros Hbody. induction cells as [|c cells IH]; intros texts blk E Hp; simpl in E.
  - injection E as <-. simpl.
    rewrite (list_alter_id _ _ _ push_children_nil). by rewrite app_nil_r.
  - destruct (text_of c) as [s|] eqn:Ec; simpl in E; [|done].
    destruct (omap text_of cells) as [ts|] eqn:Ecs; simpl in E; [|done].
    injection E as <-. simpl forEach.
    erewrite bind_run by (by apply Hbody).
    rewrite (IH ts) by (rewrite ?length_app, ?length_alter; simpl; done || lia).
    rewrite length_app, length_alter. simpl length.
    rewrite alter_app_l by (by rewrite length_alter).
    rewrite list_alter_alter_eq.
    rewrite <- app_assoc. simpl.
    do 4 f_equal. apply list_alter_ext; [|done].
    intros e. simpl. rewrite push_children_cons.
    by replace (length h0 + (length blk + 1)) with (S (length h0 + length blk)) by lia.
Qed.

Lemma tr_callback_run p (row : list value) texts h0 blk rt cs :
  omap text_of row = Ok texts -> p < length blk ->
  tr_callback (length h0 + p) row (Dom (h0 ++ blk) rt cs)
  = (Ok tt, Dom (h0 ++ (alter (push_child (CElem (length h0 + length blk))) p blk
                        ++ row_block (length h0 + length blk) texts)) rt cs).
Proof.
  intros E Hp. unfold tr_callback.
  erewrite bind_run by apply createElement_run.
  erewrite bind_run.
  2:{ apply (forEach_cells (td_callback (length h0 + length blk)) td_elem (length blk)).
      - intros c s blk' Ec Hlt. by apply td_callback_run.
      - exact E.
      - rewrite length_app. simpl. lia. }
  unfold appendChild. rewrite update_run.
  rewrite alter_last, alter_app_l by (rewrite length_app; simpl; lia).
  rewrite alter_app_l by done.
  rewrite length_app. simpl length. unfold row_block.
  rewrite <- !app_assoc. simpl.
  by replace (length h0 + (length blk + 1)) with (S (length h0 + length blk)) by lia.
Qed.

Lemma forEach_rows p h0 rt cs (rows : list (list value)) :
  forall rs blk,
    omap (omap text_of) rows = Ok rs -> p < length blk ->
    forEach rows (tr_callback (length h0 + p)) (Dom (h0 ++ blk) rt cs)
    = (Ok tt, Dom (h0 ++ (alter (push_children (row_refs (length h0 + length blk) rs)) p blk
                          ++ rows_block (length h0 + length blk) rs)) rt cs).
Proof.
  induction rows as [|row rows IH]; intros rs blk E Hp; simpl in E.
  - injection E as <-. simpl.
    rewrite (list_alter_id _ _ _ push_children_nil). by rewrite app_nil_r.
  - destruct (omap text_of row) as [r|] eqn:Er; simpl in E; [|done].
    destruct (omap (omap text_of) rows) as [rs'|] eqn:Ers; simpl in E; [|done].
    injection E as <-. simpl forEach.
    erewrite bind_run by (by apply tr_callback_run).
    rewrite (IH rs') by (rewrite ?length_app, ?length_alter; simpl; done || lia).
    rewrite alter_app_l by (by rewrite length_alter).
    rewrite list_alter_alter_eq.
    rewrite length_app, length_alter. unfold row_block at 1 2. simpl length.
    rewrite length_map.
    rewrite <- app_assoc. simpl rows_block. simpl row_refs.
    replace (length h0 + (length blk + S (length r)))
      with (length h0 + length blk + S (length r)) by lia.
    do 4 f_equal. apply list_alter_ext; [|done].
    intros e. simpl. by rewrite push_children_cons.
Qed.

Lemma makeTable_unfold (headers : list value) (rows : list (list value)) :
  makeTable headers rows =
  (let* table := createElement "table" in
   exec set_style table "borderCollapse" "collapse" in
   exec set_style table "marginBottom" "12px" in
   exec set_style table "fontSize" "0.9rem" in
   let* thead := createElement "thead" in
   let* headRow := createElement "tr" in
   exec forEach headers (th_callback headRow) in
   exec appendChild thead headRow in
   exec appendChild table thead in
   let* tbody := createElement "tbody" in
   exec forEach rows (tr_callback tbody) in
   exec appendChild table tbody in
   ret table).
Proof. reflexivity. Qed.

(** The store after a call that converts every cell: the elements that were
    there are untouched and the new ones are exactly [table_block]. *)
Lemma makeTable_run (headers : list value) (rows : list (list value)) hs rs h0 rt cs :
  omap text_of headers = Ok hs ->
  omap (omap text_of) rows = Ok rs ->
  makeTable headers rows (Dom h0 rt cs)
  = (Ok (length h0), Dom (h0 ++ table_block (length h0) hs rs) rt cs).
Proof.
  intros Eh Er. rewrite makeTable_unfold.
  rewrite <- (app_nil_r h0) at 1.
  erewrite bind_run by apply createElement_run.
  unfold set_style.
  do 3 (erewrite bind_run by apply update_run).
  do 2 (erewrite bind_run by apply createElement_run).
  simpl length. simpl alter.
  erewrite bind_run.
  2:{ apply (forEach_cells (th_callback (length h0 + 2)) th_elem 2 h0 rt cs).
      - intros c s blk Ec Hlt. by apply th_callback_run.
      - exact Eh.
      - simpl. lia. }
  unfold appendChild.
  do 2 (erewrite bind_run by apply update_run).
  simpl alter. simpl length.
  erewrite bind_run by apply createElement_run.
  match goal with
  | |- context [Dom (h0 ++ ?pre ++ [?tb]) rt cs] => set (P := pre); set (TB := tb)
  end.
  assert (HP : length P = 3 + length hs).
  { unfold P. simpl. by rewrite length_map. }
  erewrite bind_run.
  2:{ apply (forEach_rows (length P) h0 rt cs rows rs (P ++ [TB]) Er).
      rewrite length_app. simpl. lia. }
  erewrite bind_run by apply update_run.
  unfold ret. rewrite alter_last.
  rewrite length_app, HP. simpl length.
  unfold P, TB, table_block. simpl.
  replace (length h0 + 0) with (length h0) by lia.
  replace (length h0 + S (S (S (length hs + 1)))) with (S (length h0 + 3 + length hs)) by lia.
  replace (length h0 + S (S (S (length hs)))) with (length h0 + 3 + length hs) by lia.
  rewrite <- !app_assoc. reflexivity.
Qed.

(** Whether a loop completes depends on the conversions alone. *)
Lemma forEach_outcome {A X} (conv : A -> outcome X) (body : A -> M unit) :
  (forall x d, exists d',
     body x d = (match conv x with Ok _ => Ok tt | Throw e => Throw e end, d')) ->
  forall xs d, exists d',
    forEach xs body d
    = (match omap conv xs with Ok _ => Ok tt | Throw e => Throw e end, d').
Proof.
  intros Hbody. induction xs as [|x xs IH]; intros d; simpl.
  - by exists d.
  - destruct (Hbody x d) as [d1 E1]. unfold bind. rewrite E1.
    destruct (conv x) as [y|e]; simpl; [|by exists d1].
    destruct (IH d1) as [d2 E2]. rewrite E2.
    destruct (omap conv xs); simpl; by exists d2.
Qed.

Lemma th_callback_outcome p (c : value) d :
  exists d', th_callback p c d
             = (match text_of c with Ok _ => Ok tt | Throw e => Throw e end, d').
Proof.
  unfold th_callback, set_textContent, bind, lift, createElement, set_style,
    appendChild, update. simpl.
  destruct (text_of c); simpl; eauto.
Qed.

Lemma td_callback_outcome p (c : value) d :
  exists d', td_callback p c d
             = (match text_of c with Ok _ => Ok tt | Throw e => Throw e end, d').
Proof.
  unfold td_callback, set_textContent, bind, lift, createElement, set_style,
    appendChild, update. simpl.
  destruct (text_of c); simpl; eauto.
Qed.

Lemma tr_callback_outcome p (row : list value) d :
  exists d', tr_callback p row d
             = (match omap text_of row with Ok _ => Ok tt | Throw e => Throw e end, d').
Proof.
  unfold tr_callback. rewrite bind_cases. unfold createElement at 1.
  rewrite bind_cases.
  match goal with |- context [forEach row ?b ?d0] =>
    destruct (forEach_outcome text_of b (td_callback_outcome _) row d0) as [d1 E1];
    rewrite E1
  end.
  destruct (omap text_of row); simpl; eauto.
Qed.

Lemma makeTable_fst (headers : list value) (rows : list (list value)) d :
  fst (makeTable headers rows d) = makeTable_outcome headers rows (length (heap d)).
Proof.
  rewrite makeTable_unfold. unfold makeTable_outcome.
  rewrite bind_cases. unfold createElement at 1.
  unfold set_style, appendChild.
  do 3 (rewrite bind_cases; unfold update at 1).
  do 2 (rewrite bind_cases; unfold createElement at 1).
  rewrite bind_cases.
  match goal with |- context [forEach headers ?b ?d0] =>
    destruct (forEach_outcome text_of b (th_callback_outcome _) headers d0) as [d1 E1];
    rewrite E1
  end.
  destruct (omap text_of headers); simpl; [|done].
  do 2 (rewrite bind_cases; unfold update at 1).
  rewrite bind_cases; unfold createElement at 1.
  rewrite bind_cases.
  match goal with |- context [forEach rows ?b ?d0] =>
    destruct (forEach_outcome (omap text_of) b (tr_callback_outcome _) rows d0) as [d2 E2];
    rewrite E2
  end.
  destruct (omap (omap text_of) rows); simpl; done.
Qed.
End MakeTable.

(** ** The snapshot of a freshly built table *)

Lemma snap_text fuel h s : snap fuel h (CText s) = Some (TText s).
Proof. by destruct fuel. Qed.

Lemma snap_text_children fuel h s :
  mapM (snap fuel h) (text_children s) = Some (text_nodes s).
Proof.
  unfold text_children, text_nodes. destruct (String.eqb s ""); [done|].
  simpl. by rewrite snap_text.
Qed.

Lemma snap_unfold fuel h r :
  snap (S fuel) h (CElem r)
  = (e ← h !! r; kids ← mapM (snap fuel h) (children e);
     Some (TElem (tag e) (el_id e) (style e) kids)).
Proof. reflexivity. Qed.

Lemma mapM_cons {A B} (f : A -> option B) x xs :
  mapM f (x :: xs) = (y ← f x; k ← mapM f xs; Some (y :: k)).
Proof. reflexivity. Qed.

Lemma snap_leaf fuel h r e kids :
  h !! r = Some e ->
  mapM (snap fuel h) (children e) = Some kids ->
  snap (S fuel) h (CElem r) = Some (TElem (tag e) (el_id e) (style e) kids).
Proof. intros E K. rewrite snap_unfold, E. simpl. by rewrite K. Qed.

Lemma snap_th h r s :
  h !! r = Some (th_elem s) -> snap 1 h (CElem r) = Some (th_tree s).
Proof. intros E. by rewrite (snap_leaf 0 h r _ (text_nodes s) E (snap_text_children 0 h s)). Qed.

Lemma snap_td h r s :
  h !! r = Some (td_elem s) -> snap 1 h (CElem r) = Some (td_tree s).
Proof. intros E. by rewrite (snap_leaf 0 h r _ (text_nodes s) E (snap_text_children 0 h s)). Qed.

Lemma snap_refs (mk : string -> element) (mkt : string -> tree) h :
  (forall r s, h !! r = Some (mk s) -> snap 1 h (CElem r) = Some (mkt s)) ->
  forall texts base,
    (forall k s, texts !! k = Some s -> h !! (base + k) = Some (mk s)) ->
    mapM (snap 1 h) (refs_from base (length texts)) = Some (map mkt texts).
Proof.
  intros Hmk. induction texts as [|s texts IH]; intros base Hh; [done|].
  simpl length. rewrite refs_from_S.
  rewrite mapM_cons.
  rewrite (Hmk base s).
  2:{ specialize (Hh 0 s eq_refl). by rewrite Nat.add_0_r in Hh. }
  rewrite IH; [done|].
  intros k s' Hk. specialize (Hh (S k) s' Hk).
  by replace (S base + k) with (base + S k) by lia.
Qed.

Lemma snap_row h base texts :
  (forall k e, row_block base texts !! k = Some e -> h !! (base + k) = Some e) ->
  snap 2 h (CElem base) = Some (tr_tree (map td_tree texts)).
Proof.
  intros Hh.
  assert (H0 := Hh 0 _ eq_refl). rewrite Nat.add_0_r in H0.
  apply (snap_leaf 1 h base _ _ H0). simpl children.
  apply (snap_refs td_elem td_tree h (snap_td h)).
  intros k s Hk.
  replace (S base + k) with (base + S k) by lia.
  apply Hh. simpl. by rewrite list_lookup_fmap, Hk.
Qed.

Lemma rows_block_cons base r rs :
  rows_block base (r :: rs) = row_block base r ++ rows_block (base + S (length r)) rs.
Proof. reflexivity. Qed.

Lemma snap_rows h rs :
  forall base,
    (forall k e, rows_block base rs !! k = Some e -> h !! (base + k) = Some e) ->
    mapM (snap 2 h) (row_refs base rs)
    = Some (map (fun r => tr_tree (map td_tree r)) rs).
Proof.
  induction rs as [|r rs IH]; intros base Hh; [done|].
  simpl row_refs.
  rewrite mapM_cons.
  rewrite (snap_row h base r).
  2:{ intros k e Hk. apply Hh. rewrite rows_block_cons. by apply lookup_app_l_Some. }
  rewrite IH; [done|].
  intros k e Hk. rewrite <- Nat.add_assoc.
  apply Hh. rewrite rows_block_cons.
  assert (Hlen : length (row_block base r) = S (length r))
    by (unfold row_block; simpl; by rewrite length_map).
  rewrite lookup_app_r by (rewrite Hlen; lia).
  rewrite Hlen.
  by replace (S (length r) + k - S (length r)) with k by lia.
Qed.

(** Wherever the block of a table sits in a store, the snapshot of its first
    element is the expected table. *)
Lemma snap_table h n hs rs :
  (forall k e, table_block n hs rs !! k = Some e -> h !! (n + k) = Some e) ->
  snap 4 h (CElem n) = Some (table_tree hs rs).
Proof.
  intros Hh.
  assert (Hh_at : forall k r e, r = n + k -> table_block n hs rs !! k = Some e ->
                                h !! r = Some e).
  { intros k r e ->. apply Hh. }
  assert (H0 := Hh 0 _ eq_refl). assert (H1 := Hh 1 _ eq_refl).
  assert (H2 := Hh 2 _ eq_refl).
  assert (Hth : forall k s, hs !! k = Some s -> h !! (n + 3 + k) = Some (th_elem s)).
  { intros k s Hk. rewrite <- Nat.add_assoc. apply Hh.
    unfold table_block. simpl. rewrite lookup_app_l_Some with (x := th_elem s); [done|].
    by rewrite list_lookup_fmap, Hk. }
  assert (Htb : h !! (n + 3 + length hs)
                = Some (Element "tbody" None [] (row_refs (S (n + 3 + length hs)) rs))).
  { apply (Hh_at (3 + length hs)); [lia|]. unfold table_block. simpl.
    rewrite lookup_app_r by (by rewrite length_map).
    by rewrite length_map, Nat.sub_diag. }
  assert (Hrows : forall k e, rows_block (S (n + 3 + length hs)) rs !! k = Some e ->
                              h !! (S (n + 3 + length hs) + k) = Some e).
  { intros k e Hk.
    replace (S (n + 3 + length hs) + k) with (n + (3 + (length hs + S k))) by lia.
    apply Hh. unfold table_block. simpl.
    rewrite lookup_app_r by (rewrite length_map; lia).
    rewrite length_map.
    replace (length hs + S k - length hs) with (S k) by lia. done. }
  rewrite Nat.add_0_r in H0.
  apply (snap_leaf 3 h n _ _ H0). simpl children.
  rewrite !mapM_cons.
  rewrite (snap_leaf 2 h (n + 1) _ [tr_tree (map th_tree hs)] H1).
  2:{ simpl children. rewrite mapM_cons.
      rewrite (snap_leaf 1 h (n + 2) _ (map th_tree hs) H2); [done|].
      simpl children. by apply (snap_refs th_elem th_tree h (snap_th h)). }
  rewrite (snap_leaf 2 h _ _ _ Htb (snap_rows h rs _ Hrows)). done.
Qed.

(** ** Reading the expected table *)

Lemma tree_text_text_nodes s : String.concat "" (map tree_text (text_nodes s)) = s.
Proof.
  unfold text_nodes. destruct (String.eqb s "") eqn:E; [|done].
  apply String.eqb_eq in E. by subst.
Qed.

Lemma tree_text_th s : tree_text (th_tree s) = s.
Proof. apply tree_text_text_nodes. Qed.

Lemma tree_text_td s : tree_text (td_tree s) = s.
Proof. apply tree_text_text_nodes. Qed.

Lemma header_cells_table hs rs : header_cells (table_tree hs rs) = map th_tree hs.
Proof. unfold header_cells, section_rows. simpl. by rewrite !app_nil_r. Qed.

Lemma body_rows_table hs rs :
  body_rows (table_tree hs rs) = map (fun r => tr_tree (map td_tree r)) rs.
Proof. unfold body_rows, section_rows. simpl. by rewrite app_nil_r. Qed.

Lemma header_texts_table hs rs : header_texts (table_tree hs rs) = hs.
Proof.
  unfold header_texts. rewrite header_cells_table, map_map.
  rewrite <- (map_id hs) at 2. apply map_ext. intros s. apply tree_text_th.
Qed.

Lemma body_texts_table hs rs : body_texts (table_tree hs rs) = rs.
Proof.
  unfold body_texts. rewrite body_rows_table, map_map.
  rewrite <- (map_id rs) at 2. apply map_ext. intros r. simpl.
  rewrite map_map. rewrite <- (map_id r) at 2. apply map_ext. intros s.
  apply tree_text_td.
Qed.

(** ** Looking an element up by id *)

Lemma find_id_Some fuel h id c r :
  find_id fuel h id c = Some r ->
  exists e, h !! r = Some e /\ el_id e = Some id.
Proof.
  revert c r. induction fuel as [|fuel IH]; intros c r; simpl; [done|].
  destruct c as [s|r0]; [done|].
  destruct (h !! r0) as [e|] eqn:E; [|done].
  destruct (decide (el_id e = Some id)) as [Hid|_].
  - intros [= <-]. eauto.
  - induction (children e) as [|c cs IHcs]; simpl; [done|].
    destruct (find_id fuel h id c) as [r'|] eqn:Ec.
    + intros [= <-]. eauto.
    + exact IHcs.
Qed.

Lemma getElementById_run id d :
  getElementById id d
  = (Ok (find_id (S (length (heap d))) (heap d) id (CElem (root d))), d).
Proof. reflexivity. Qed.

Lemma find_id_lt fuel h id c r : find_id fuel h id c = Some r -> r < length h.
Proof.
  intros E. destruct (find_id_Some _ _ _ _ _ E) as (e & He & _).
  by apply lookup_lt_Some in He.
Qed.

(** Two different ids are never found on the same element. *)
Lemma find_id_distinct h id1 id2 f1 f2 c1 c2 r1 r2 :
  id1 <> id2 ->
  find_id f1 h id1 c1 = Some r1 -> find_id f2 h id2 c2 = Some r2 -> r1 <> r2.
Proof.
  intros Hne E1 E2 ->.
  destruct (find_id_Some _ _ _ _ _ E1) as (e1 & He1 & Hid1).
  destruct (find_id_Some _ _ _ _ _ E2) as (e2 & He2 & Hid2).
  congruence.
Qed.

(** ** One leaderboard section *)

Lemma bind_ok_inv {A B} (m : M A) (k : A -> M B) d b d' :
  bind m k d = (Ok b, d') ->
  exists a d1, m d = (Ok a, d1) /\ k a d1 = (Ok b, d').
Proof.
  rewrite bind_cases. destruct (m d) as [[a|e] d1]; [eauto|done].
Qed.

Section Handler.
Context {number : Type} `{JSNumber number}.
Local Abbreviation value := (value number).

Lemma omap_text_of_VStr (hs : list string) :
  omap text_of (map (VStr (number := number)) hs) = Ok hs.
Proof. induction hs as [|s hs IH]; [done|]. simpl. by rewrite IH. Qed.

Lemma render_board_section b div (v : value) :
  render_board b div v
  = render_section div v (board_row b) (map VStr (board_headers b)).
Proof. by destruct b. Qed.

Lemma render_section_None (v : value) row headers d :
  render_section None v row headers d = (Ok tt, d).
Proof. reflexivity. Qed.

Lemma clear_innerHTML_run div h rt cs :
  clear_innerHTML div (Dom h rt cs) = (Ok tt, Dom (alter (with_children []) div h) rt cs).
Proof. reflexivity. Qed.

Lemma appendChild_run p c h rt cs :
  appendChild p c (Dom h rt cs) = (Ok tt, Dom (alter (push_child (CElem c)) p h) rt cs).
Proof. reflexivity. Qed.

(** A section that completes leaves its region with the new table only. *)
Lemma render_section_run div (v : value) row headers rows hs rs h rt cs :
  div < length h ->
  array_map v row = Ok rows ->
  omap text_of headers = Ok hs ->
  omap (omap text_of) rows = Ok rs ->
  render_section (Some div) v row headers (Dom h rt cs)
  = (Ok tt, Dom (alter (with_children [CElem (length h)]) div h
                 ++ table_block (length h) hs rs) rt cs).
Proof.
  intros Hdiv Erows Ehs Ers. unfold render_section.
  erewrite bind_run by apply clear_innerHTML_run.
  erewrite bind_run by (unfold lift; by rewrite Erows).
  erewrite bind_run by (by apply makeTable_run).
  rewrite appendChild_run, length_alter.
  rewrite alter_app_l by (by rewrite length_alter).
  rewrite list_alter_alter_eq. reflexivity.
Qed.

(** A section whose rows cannot be built has cleared its region already. *)
Lemma render_section_throw div (v : value) row headers e h rt cs :
  array_map v row = Throw e ->
  render_section (Some div) v row headers (Dom h rt cs)
  = (Throw e, Dom (alter (with_children []) div h) rt cs).
Proof.
  intros Erows. unfold render_section.
  erewrite bind_run by apply clear_innerHTML_run.
  erewrite bind_throw; [done|]. unfold lift. by rewrite Erows.
Qed.

Lemma render_section_inv div (v : value) row headers hs h rt cs d' :
  div < length h ->
  omap text_of headers = Ok hs ->
  render_section (Some div) v row headers (Dom h rt cs) = (Ok tt, d') ->
  exists rows rs,
    array_map v row = Ok rows /\
    omap (omap text_of) rows = Ok rs /\
    d' = Dom (alter (with_children [CElem (length h)]) div h
              ++ table_block (length h) hs rs) rt cs.
Proof.
  intros Hdiv Ehs Hrun.
  destruct (array_map v row) as [rows|e] eqn:Erows.
  2:{ by rewrite (render_section_throw _ _ _ _ e) in Hrun. }
  destruct (omap (omap text_of) rows) as [rs|e] eqn:Ers.
  - exists rows, rs. split; [done|]. split; [done|].
    rewrite (render_section_run div v row headers rows hs rs) in Hrun by done.
    by injection Hrun as <-.
  - exfalso. unfold render_section in Hrun.
    erewrite bind_run in Hrun by apply clear_innerHTML_run.
    erewrite bind_run in Hrun by (unfold lift; by rewrite Erows).
    rewrite bind_cases in Hrun.
    match type of Hrun with context [makeTable ?a ?b ?c] =>
      assert (Hfst := makeTable_fst a b c); destruct (makeTable a b c) as [[t|e'] d1]
    end; [|done].
    unfold makeTable_outcome in Hfst. by rewrite Ehs, Ers in Hfst.
Qed.

End Handler.

(** ** Sections in sequence *)

Lemma sec_step_length step h h' : sec_step step h h' -> length h <= length h'.
Proof.
  destruct step as [[[d|] hs] rs]; simpl; intros ->; [|done].
  rewrite length_app, length_alter. lia.
Qed.

Lemma sec_step_frame step h h' r :
  sec_step step h h' -> r < length h -> step.1.1 <> Some r -> h' !! r = h !! r.
Proof.
  destruct step as [[[d|] hs] rs]; simpl; intros -> Hr Hne; [|done].
  rewrite lookup_app_l by (by rewrite length_alter).
  apply list_lookup_alter_ne. intros ->. by apply Hne.
Qed.

Lemma sec_step_own d hs rs h h' e :
  sec_step (Some d, hs, rs) h h' -> h !! d = Some e ->
  h' !! d = Some (with_children [CElem (length h)] e) /\
  block_at h' (length h) (table_block (length h) hs rs).
Proof.
  simpl. intros -> He. split.
  - rewrite lookup_app_l by (rewrite length_alter; by apply lookup_lt_Some in He).
    by rewrite list_lookup_alter_eq, He.
  - intros k el Hk. rewrite lookup_app_r by (rewrite length_alter; lia).
    rewrite length_alter. by replace (length h + k - length h) with k by lia.
Qed.

Lemma block_at_frame step h h' t blk :
  block_at h t blk -> sec_step step h h' ->
  (forall d, step.1.1 = Some d -> d < t) ->
  block_at h' t blk.
Proof.
  intros Hb Hstep Hlt k e Hk. specialize (Hb k e Hk).
  rewrite (sec_step_frame step h h' (t + k) Hstep); [done|by apply lookup_lt_Some in Hb|].
  intros Hd. specialize (Hlt _ Hd). lia.
Qed.

Lemma sec_steps_length steps : forall h h', sec_steps steps h h' -> length h <= length h'.
Proof.
  induction steps as [|step steps IH]; intros h h'; simpl.
  - by intros ->.
  - intros (hm & Hs & Hrest). apply sec_step_length in Hs. apply IH in Hrest. lia.
Qed.

Lemma sec_steps_frame steps : forall h h' r,
  sec_steps steps h h' -> r < length h ->
  (forall step, step ∈ steps -> step.1.1 <> Some r) ->
  h' !! r = h !! r.
Proof.
  induction steps as [|step steps IH]; intros h h' r; simpl.
  - by intros ->.
  - intros (hm & Hs & Hrest) Hr Hne.
    rewrite (IH hm h' r Hrest).
    + apply (sec_step_frame step); [done|done|]. apply Hne. by left.
    + apply sec_step_length in Hs. lia.
    + intros s Hin. apply Hne. by right.
Qed.

Lemma sec_steps_block steps : forall h h' t blk,
  sec_steps steps h h' -> block_at h t blk ->
  (forall step d, step ∈ steps -> step.1.1 = Some d -> d < t) ->
  block_at h' t blk.
Proof.
  induction steps as [|step steps IH]; intros h h' t blk; simpl.
  - by intros ->.
  - intros (hm & Hs & Hrest) Hb Hlt.
    apply (IH hm h' t blk Hrest).
    + apply (block_at_frame step h); [done|done|]. intros d. apply Hlt. by left.
    + intros s d Hin. apply Hlt. by right.
Qed.

(** After the sections have run, the region of each of them holds its own
    table, whatever the other sections did. *)
Lemma sec_steps_region steps : forall h h' n i d hs rs e,
  sec_steps steps h h' ->
  steps !! i = Some (Some d, hs, rs) ->
  (forall j step, steps !! j = Some step -> j <> i -> step.1.1 <> Some d) ->
  (forall step d', step ∈ steps -> step.1.1 = Some d' -> d' < n) ->
  n <= length h ->
  h !! d = Some e ->
  exists t,
    h' !! d = Some (with_children [CElem t] e) /\ n <= t /\
    block_at h' t (table_block t hs rs).
Proof.
  induction steps as [|step steps IH]; intros h h' n i d hs rs e; [done|].
  simpl. intros (hm & Hs & Hrest) Hi Hother Hlt Hn He.
  destruct i as [|i]; simpl in Hi.
  - injection Hi as ->. exists (length h).
    destruct (sec_step_own d hs rs h hm e Hs He) as [Hown Hblk].
    split; [|split; [done|]].
    + rewrite (sec_steps_frame steps hm h' d Hrest); [done|by apply lookup_lt_Some in Hown|].
      intros s Hin. apply list_elem_of_lookup in Hin as [j Hj].
      apply (Hother (S j) s); [done|lia].
    + apply (sec_steps_block steps hm h'); [done|done|].
      intros s d' Hin Hd'. specialize (Hlt s d' (list_elem_of_further _ _ _ Hin) Hd'). lia.
  - apply (IH hm h' n i d hs rs e Hrest Hi).
    + intros j s Hj Hne. apply (Hother (S j) s); [done|lia].
    + intros s d' Hin. apply Hlt. by right.
    + apply sec_step_length in Hs. lia.
    + rewrite (sec_step_frame step h hm d Hs); [done|by apply lookup_lt_Some in He|].
      apply (Hother 0 step); [done|lia].
Qed.

(** ** The four sections of the handler *)

Section Leaders.
Context {number : Type} `{JSNumber number}.
Local Abbreviation value := (value number).

Lemma render_board_inv b div (v : value) h rt cs d1 :
  (forall dd, div = Some dd -> dd < length h) ->
  render_board b div v (Dom h rt cs) = (Ok tt, d1) ->
  exists rs h1,
    (forall dd, div = Some dd ->
       exists rows, array_map v (board_row b) = Ok rows /\
                    omap (omap text_of) rows = Ok rs) /\
    d1 = Dom h1 rt cs /\
    sec_step (div, board_headers b, rs) h h1.
Proof.
  intros Hlt. rewrite render_board_section. destruct div as [dd|].
  - intros Hrun.
    apply (render_section_inv dd v _ _ (board_headers b)) in Hrun
      as (rows & rs & Erows & Ers & ->);
      [|by apply Hlt|apply omap_text_of_VStr].
    exists rs. eexists. split; [|split; [reflexivity|reflexivity]].
    intros ? _. eauto.
  - rewrite render_section_None. intros [= <-].
    exists [], h. split; [done|]. by split.
Qed.

(** The handler's four sections, when they all complete, are four steps on
    the store, one per leaderboard, in the order of the script. *)
Lemma render_leaders_inv (data : value) h rt cs d' :
  render_leaders data (Dom h rt cs) = (Ok tt, d') ->
  exists (rs : board -> list (list string)) h',
    (forall b div, region b (Dom h rt cs) = Some div ->
                   board_texts b data = Ok (rs b)) /\
    sec_steps (map (fun b => (region b (Dom h rt cs), board_headers b, rs b)) boards)
      h h' /\
    d' = Dom h' rt cs.
Proof.
  unfold render_leaders. intros Hrun.
  do 4 (erewrite bind_run in Hrun by apply getElementById_run).
  simpl heap in Hrun. simpl root in Hrun.
  rewrite bind_cases in Hrun. unfold lift at 1 in Hrun.
  destruct (leaderboard data "player_leaders" "points_per_game") as [ppg|] eqn:E1; [|done].
  rewrite bind_cases in Hrun. unfold lift at 1 in Hrun.
  destruct (leaderboard data "player_leaders" "points_total") as [pts|] eqn:E2; [|done].
  rewrite bind_cases in Hrun. unfold lift at 1 in Hrun.
  destruct (leaderboard data "player_leaders" "three_pointers_made") as [threes|] eqn:E3; [|done].
  rewrite bind_cases in Hrun. unfold lift at 1 in Hrun.
  destruct (leaderboard data "team_leaders" "offense_points_per_game") as [teamOff|] eqn:E4; [|done].
  set (r1 := find_id (S (length h)) h "leaders-ppg" (CElem rt)) in *.
  set (r2 := find_id (S (length h)) h "leaders-pts" (CElem rt)) in *.
  set (r3 := find_id (S (length h)) h "leaders-threes" (CElem rt)) in *.
  set (r4 := find_id (S (length h)) h "leaders-teams" (CElem rt)) in *.
  assert (L1 : forall dd, r1 = Some dd -> dd < length h) by (intros dd; apply find_id_lt).
  assert (L2 : forall dd, r2 = Some dd -> dd < length h) by (intros dd; apply find_id_lt).
  assert (L3 : forall dd, r3 = Some dd -> dd < length h) by (intros dd; apply find_id_lt).
  assert (L4 : forall dd, r4 = Some dd -> dd < length h) by (intros dd; apply find_id_lt).
  rewrite bind_cases in Hrun.
  destruct (render_ppg r1 ppg (Dom h rt cs)) as [[[]|] d1] eqn:R1; [|done].
  apply (render_board_inv PointsPerGame) in R1 as (rs1 & h1 & T1 & -> & S1); [|done].
  assert (Hl1 := sec_step_length _ _ _ S1).
  rewrite bind_cases in Hrun.
  destruct (render_pts r2 pts (Dom h1 rt cs)) as [[[]|] d2] eqn:R2; [|done].
  apply (render_board_inv PointsTotal) in R2 as (rs2 & h2 & T2 & -> & S2);
    [|intros dd Hdd; specialize (L2 dd Hdd); lia].
  assert (Hl2 := sec_step_length _ _ _ S2).
  rewrite bind_cases in Hrun.
  destruct (render_threes r3 threes (Dom h2 rt cs)) as [[[]|] d3] eqn:R3; [|done].
  apply (render_board_inv ThreePointers) in R3 as (rs3 & h3 & T3 & -> & S3);
    [|intros dd Hdd; specialize (L3 dd Hdd); lia].
  assert (Hl3 := sec_step_length _ _ _ S3).
  apply (render_board_inv TeamOffense) in Hrun as (rs4 & h4 & T4 & -> & S4);
    [|intros dd Hdd; specialize (L4 dd Hdd); lia].
  exists (fun b => match b with
                   | PointsPerGame => rs1 | PointsTotal => rs2
                   | ThreePointers => rs3 | TeamOffense => rs4 end), h4.
  split; [|split; [|done]].
  - intros b div Hdiv. unfold region in Hdiv. simpl in Hdiv.
    destruct b; unfold board_texts, board_value.
    + rewrite E1. destruct (T1 div Hdiv) as (rows & Em & Hr). cbn [obind]. by rewrite Em.
    + rewrite E2. destruct (T2 div Hdiv) as (rows & Em & Hr). cbn [obind]. by rewrite Em.
    + rewrite E3. destruct (T3 div Hdiv) as (rows & Em & Hr). cbn [obind]. by rewrite Em.
    + rewrite E4. destruct (T4 div Hdiv) as (rows & Em & Hr). cbn [obind]. by rewrite Em.
  - simpl. exists h1. split; [done|]. exists h2. split; [done|].
    exists h3. split; [done|]. exists h4. split; [done|]. done.
Qed.


Lemma region_id_inj b1 b2 : region_id b1 = region_id b2 -> b1 = b2.
Proof. by destruct b1, b2. Qed.

Lemma region_lt b d div : region b d = Some div -> div < length (heap d).
Proof. apply find_id_lt. Qed.

Lemma region_distinct b1 b2 d div :
  region b1 d = Some div -> region b2 d = Some div -> b1 = b2.
Proof.
  intros E1 E2. destruct (decide (region_id b1 = region_id b2)) as [Heq|Hne].
  - by apply region_id_inj.
  - by destruct (find_id_distinct _ _ _ _ _ _ _ _ _ Hne E1 E2).
Qed.

Lemma region_el_id b d div :
  region b d = Some div ->
  exists e, heap d !! div = Some e /\ el_id e = Some (region_id b).
Proof. apply find_id_Some. Qed.

(** When the four sections complete, every region that was found holds the
    table of its own leaderboard and nothing else, and the element is
    otherwise as it was. *)
Lemma render_leaders_region (data : value) h rt cs d' b div e :
  render_leaders data (Dom h rt cs) = (Ok tt, d') ->
  region b (Dom h rt cs) = Some div ->
  h !! div = Some e ->
  exists rs t,
    board_texts b data = Ok rs /\
    heap d' !! div = Some (with_children [CElem t] e) /\
    length h <= t /\
    block_at (heap d') t (table_block t (board_headers b) rs).
Proof.
  intros Hrun Hreg He.
  apply render_leaders_inv in Hrun as (rs & h' & Htexts & Hsteps & ->).
  exists (rs b). simpl heap.
  set (steps := map _ boards) in Hsteps.
  assert (Hidx : exists i, steps !! i = Some (Some div, board_headers b, rs b)).
  { unfold steps, boards. destruct b;
      [exists 0|exists 1|exists 2|exists 3]; simpl; by rewrite Hreg. }
  destruct Hidx as [i Hi].
  destruct (sec_steps_region steps h h' (length h) i div (board_headers b) (rs b) e
              Hsteps Hi) as (t & Hown & Hle & Hblk); [| |done|done|].
  - intros j step Hj Hne Hd. unfold steps in Hj, Hi.
    rewrite list_lookup_fmap in Hj, Hi.
    destruct (boards !! j) as [b'|] eqn:Eb'; [|done].
    destruct (boards !! i) as [b''|] eqn:Eb''; [|done].
    simpl in Hj, Hi. injection Hj as <-. simpl in Hd.
    injection Hi as Hr _ _.
    assert (b' = b'') by (by apply (region_distinct b' b'' (Dom h rt cs) div)).
    subst b''. apply Hne.
    unfold boards in *. destruct b';
      repeat (destruct i as [|i]; try done); repeat (destruct j as [|j]; try done).
  - intros step d0 Hin Hd. unfold steps in Hin.
    apply list_elem_of_fmap in Hin as (b' & -> & _). simpl in Hd.
    by apply region_lt in Hd.
  - exists t. split; [by apply Htexts in Hreg|]. done.
Qed.

(** What no section names is left alone. *)
Lemma render_leaders_frame (data : value) h rt cs d' r :
  render_leaders data (Dom h rt cs) = (Ok tt, d') ->
  r < length h ->
  (forall b, region b (Dom h rt cs) <> Some r) ->
  heap d' !! r = h !! r.
Proof.
  intros Hrun Hr Hno.
  apply render_leaders_inv in Hrun as (rs & h' & _ & Hsteps & ->).
  simpl heap. apply (sec_steps_frame _ _ _ _ Hsteps Hr).
  intros step Hin. apply list_elem_of_fmap in Hin as (b & -> & _). apply Hno.
Qed.

(** The snapshot of a region that holds one table. *)
Lemma snap_region h div e t hs rs :
  h !! div = Some (with_children [CElem t] e) ->
  block_at h t (table_block t hs rs) ->
  snap 5 h (CElem div)
  = Some (TElem (tag e) (el_id e) (style e) [table_tree hs rs]).
Proof.
  intros Hdiv Hblk.
  rewrite (snap_leaf 4 h div _ [table_tree hs rs] Hdiv); [done|].
  simpl children. rewrite mapM_cons. by rewrite (snap_table h t hs rs Hblk).
Qed.

End Leaders.

(** * The claims about makeTable *)

Section TableClaims.
Context {number : Type} `{JSNumber number}.
Local Abbreviation value := (value number).

Lemma text_of_scalar (c : scalar) : text_of (value_of_scalar c) = Ok (scalar_text c).
Proof. by destruct c. Qed.

Lemma to_string_scalar (c : scalar) : to_string (value_of_scalar c) = Ok (scalar_text c).
Proof. by destruct c. Qed.

Lemma omap_text_of_scalars (row : list scalar) :
  omap text_of (map value_of_scalar row) = Ok (map scalar_text row).
Proof.
  induction row as [|c row IH]; [done|]. simpl.
  by rewrite text_of_scalar, IH.
Qed.

Lemma omap_text_of_rows (R : list (list scalar)) :
  omap (omap text_of) (map (map value_of_scalar) R) = Ok (map (map scalar_text) R).
Proof.
  induction R as [|row R IH]; [done|]. simpl.
  by rewrite omap_text_of_scalars, IH.
Qed.

(** A call on strings and scalars returns a fresh table whose snapshot is
    the expected one; the store it found is a prefix of the store it
    leaves. *)
Lemma makeTable_scalars (hs : list string) (R : list (list scalar)) d :
  exists d',
    makeTable (map VStr hs) (map (map value_of_scalar) R) d = (Ok (length (heap d)), d') /\
    heap d' = heap d ++ table_block (length (heap d)) hs (map (map scalar_text) R) /\
    snap 4 (heap d') (CElem (length (heap d)))
    = Some (table_tree hs (map (map scalar_text) R)).
Proof.
  destruct d as [h rt cs]. simpl heap.
  eexists. split; [|split].
  - apply makeTable_run; [apply omap_text_of_VStr|apply omap_text_of_rows].
  - reflexivity.
  - simpl heap. apply snap_table. intros k e Hk.
    rewrite lookup_app_r by lia.
    by replace (length h + k - length h) with k by lia.
Qed.

Lemma body_cell_lookup hs (rs : list (list string)) i j row s :
  rs !! i = Some row -> row !! j = Some s ->
  exists tr cell,
    body_rows (table_tree hs rs) !! i = Some tr /\
    tree_kids tr !! j = Some cell /\
    tree_text cell = s.
Proof.
  intros Hi Hj. rewrite body_rows_table.
  exists (tr_tree (map td_tree row)), (td_tree s).
  split; [by rewrite list_lookup_fmap, Hi|].
  split; [simpl; by rewrite list_lookup_fmap, Hj|apply tree_text_td].
Qed.

(** C1. For headers [H] and rows [R] whose rows all have [|H|] cells,
    [makeTable] returns a table with [|H|] header cells and [|R|] body rows;
    the text of cell [j] of body row [i] is the string form of value [j] of
    input row [i]; headers and rows come in the order given, none left out,
    none merged. *)
Theorem makeTable_renders_in_order (hdrs : list string) (R : list (list scalar)) (d : dom) :
  (forall row, row ∈ R -> length row = length hdrs) ->
  exists t d' table,
    makeTable (map VStr hdrs) (map (map value_of_scalar) R) d = (Ok t, d') /\
    snap 4 (heap d') (CElem t) = Some table /\
    length (header_cells table) = length hdrs /\
    length (body_rows table) = length R /\
    header_texts table = hdrs /\
    body_texts table = map (map scalar_text) R /\
    (forall tr, tr ∈ body_rows table -> length (tree_kids tr) = length hdrs) /\
    (forall i j row c,
       R !! i = Some row -> row !! j = Some c ->
       exists tr cell,
         body_rows table !! i = Some tr /\
         tree_kids tr !! j = Some cell /\
         to_string (value_of_scalar c) = Ok (tree_text cell)).
Proof.
  intros Hlen.
  destruct (makeTable_scalars hdrs R d) as (d' & Hrun & _ & Hsnap).
  exists (length (heap d)), d', (table_tree hdrs (map (map scalar_text) R)).
  split; [done|]. split; [done|].
  split; [by rewrite header_cells_table, length_map|].
  split; [by rewrite body_rows_table, !length_map|].
  split; [apply header_texts_table|].
  split; [apply body_texts_table|].
  split.
  - intros tr. rewrite body_rows_table, map_map.
    intros Hin. apply list_elem_of_fmap in Hin as (row & -> & Hrow).
    simpl. rewrite !length_map. by apply Hlen.
  - intros i j row c Hi Hj.
    destruct (body_cell_lookup hdrs (map (map scalar_text) R) i j
                (map scalar_text row) (scalar_text c)) as (tr & cell & Htr & Hcell & Htext).
    + by rewrite list_lookup_fmap, Hi.
    + by rewrite list_lookup_fmap, Hj.
    + exists tr, cell. split; [done|]. split; [done|].
      by rewrite Htext, to_string_scalar.
Qed.

(** C2. Whatever the lengths of the rows, [makeTable] raises no error, and
    each body row has exactly one cell per value of its input row: a short
    row gives fewer cells than there are headers, a long row gives them
    all. *)
Theorem makeTable_ragged_rows (hdrs : list string) (R : list (list scalar)) (d : dom) :
  exists t d' table,
    makeTable (map VStr hdrs) (map (map value_of_scalar) R) d = (Ok t, d') /\
    snap 4 (heap d') (CElem t) = Some table /\
    length (header_cells table) = length hdrs /\
    map (fun tr => length (tree_kids tr)) (body_rows table) = map length R /\
    body_texts table = map (map scalar_text) R.
Proof.
  destruct (makeTable_scalars hdrs R d) as (d' & Hrun & _ & Hsnap).
  exists (length (heap d)), d', (table_tree hdrs (map (map scalar_text) R)).
  split; [done|]. split; [done|].
  split; [by rewrite header_cells_table, length_map|].
  split; [|apply body_texts_table].
  rewrite body_rows_table, !map_map. apply map_ext.
  intros row. simpl. by rewrite !length_map.
Qed.

(** C3. With no rows the table has its [|H|] header cells and no body row;
    with no headers it has no header cell and [|R|] body rows, each showing
    its values. *)
Theorem makeTable_empty_inputs (hdrs : list string) (R : list (list scalar)) (d : dom) :
  (exists t d' table,
     makeTable (map VStr hdrs) [] d = (Ok t, d') /\
     snap 4 (heap d') (CElem t) = Some table /\
     length (section_rows "thead" table) = 1 /\
     length (header_cells table) = length hdrs /\
     header_texts table = hdrs /\
     body_rows table = []) /\
  (exists t d' table,
     makeTable [] (map (map value_of_scalar) R) d = (Ok t, d') /\
     snap 4 (heap d') (CElem t) = Some table /\
     header_cells table = [] /\
     length (body_rows table) = length R /\
     body_texts table = map (map scalar_text) R).
Proof.
  split.
  - destruct (makeTable_scalars hdrs [] d) as (d' & Hrun & _ & Hsnap).
    exists (length (heap d)), d', (table_tree hdrs []).
    split; [done|]. split; [done|]. split; [done|].
    split; [by rewrite header_cells_table, length_map|].
    split; [apply header_texts_table|apply body_rows_table].
  - destruct (makeTable_scalars [] R d) as (d' & Hrun & _ & Hsnap).
    exists (length (heap d)), d', (table_tree [] (map (map scalar_text) R)).
    split; [done|]. split; [done|]. split; [apply header_cells_table|].
    split; [by rewrite body_rows_table, !length_map|apply body_texts_table].
Qed.

Lemma observe_makeTable (headers : list value) (rows : list (list value)) d :
  observe (makeTable headers rows d)
  = match omap text_of headers with
    | Throw e => Throw e
    | Ok hs =>
        match omap (omap text_of) rows with
        | Throw e => Throw e
        | Ok rs => Ok (Some (table_tree hs rs))
        end
    end.
Proof.
  destruct (omap text_of headers) as [hs|e] eqn:Eh.
  - destruct (omap (omap text_of) rows) as [rs|e] eqn:Er.
    + destruct d as [h rt cs]. rewrite (makeTable_run headers rows hs rs) by done.
      simpl. f_equal. apply snap_table. intros k e Hk.
      rewrite lookup_app_r by lia.
      by replace (length h + k - length h) with k by lia.
    + assert (Hfst := makeTable_fst headers rows d).
      unfold makeTable_outcome in Hfst. rewrite Eh, Er in Hfst.
      destruct (makeTable headers rows d) as [[t|e'] d']; simpl in *; congruence.
  - assert (Hfst := makeTable_fst headers rows d).
    unfold makeTable_outcome in Hfst. rewrite Eh in Hfst.
    destruct (makeTable headers rows d) as [[t|e'] d']; simpl in *; congruence.
Qed.

(** C4. Two calls with the same headers and the same rows, in whatever
    stores, give the same result up to the references of the elements they
    allocate: the same exception, or tables with the same snapshot, hence
    the same header texts and the same cell texts row by row. *)
Theorem makeTable_deterministic (headers : list value) (rows : list (list value))
  (d1 d2 : dom) :
  observe (makeTable headers rows d1) = observe (makeTable headers rows d2) /\
  (exists result : outcome tree,
     observe (makeTable headers rows d1)
     = match result with Ok table => Ok (Some table) | Throw e => Throw e end) /\
  (match observe (makeTable headers rows d1), observe (makeTable headers rows d2) with
   | Ok (Some table1), Ok (Some table2) =>
       header_texts table1 = header_texts table2 /\
       body_texts table1 = body_texts table2
   | Ok None, _ | _, Ok None => False
   | Ok (Some _), Throw _ | Throw _, Ok (Some _) => False
   | Throw e1, Throw e2 => e1 = e2
   end).
Proof.
  rewrite !observe_makeTable.
  destruct (omap text_of headers) as [hs|e]; [|split; [done|split; [by exists (Throw e)|done]]].
  destruct (omap (omap text_of) rows) as [rs|e];
    [|split; [done|split; [by exists (Throw e)|done]]].
  split; [done|]. split; [by exists (Ok (table_tree hs rs))|done].
Qed.

End TableClaims.

(** * The claims about the handlers *)

Lemma omap_lookup {A B} (f : A -> outcome B) xs ys i y :
  omap f xs = Ok ys -> ys !! i = Some y ->
  exists x, xs !! i = Some x /\ f x = Ok y.
Proof.
  revert ys i. induction xs as [|x xs IH]; intros ys i; simpl.
  - by intros [= <-].
  - destruct (f x) as [y0|] eqn:Ex; simpl; [|done].
    destruct (omap f xs) as [ys0|] eqn:Exs; simpl; [|done].
    intros [= <-]. destruct i as [|i]; simpl.
    + intros [= <-]. eauto.
    + intros Hi. by apply (IH ys0).
Qed.

Section HandlerClaims.
Context {number : Type} `{JSNumber number}.
Local Abbreviation value := (value number).

Lemma map_from_lookup {A} (f : value -> nat -> outcome A) xs : forall i ys k y,
  map_from f i xs = Ok ys -> ys !! k = Some y ->
  exists x, xs !! k = Some x /\ f x (i + k) = Ok y.
Proof.
  induction xs as [|x xs IH]; intros i ys k y; simpl.
  - by intros [= <-].
  - destruct (f x i) as [y0|] eqn:Ex; simpl; [|done].
    destruct (map_from f (S i) xs) as [ys0|] eqn:Exs; simpl; [|done].
    intros [= <-]. destruct k as [|k]; simpl.
    + intros [= <-]. rewrite Nat.add_0_r. eauto.
    + intros Hk. destruct (IH (S i) ys0 k y Exs Hk) as (x' & Hx' & Hf).
      exists x'. split; [done|]. by replace (i + S k) with (S i + k) by lia.
Qed.

Lemma map_from_length {A} (f : value -> nat -> outcome A) xs : forall i ys,
  map_from f i xs = Ok ys -> length ys = length xs.
Proof.
  induction xs as [|x xs IH]; intros i ys; simpl.
  - by intros [= <-].
  - destruct (f x i) as [y0|]; simpl; [|done].
    destruct (map_from f (S i) xs) as [ys0|] eqn:Exs; simpl; [|done].
    intros [= <-]. simpl. f_equal. by apply (IH (S i)).
Qed.




Lemma then_handler_inv (data : value) d d' :
  then_handler data d = (Ok tt, d') ->
  (update_timestamp data d).1 = Ok tt /\
  render_leaders data (update_timestamp data d).2 = (Ok tt, d').
Proof.
  unfold then_handler. intros Hrun.
  apply bind_ok_inv in Hrun as ([] & d1 & -> & Hrest). done.
Qed.




(** What the handler leaves in a region it found, when it completes. *)
Lemma then_handler_region (data : value) d d' b div :
  then_handler data d = (Ok tt, d') ->
  region b (update_timestamp data d).2 = Some div ->
  exists e rs t,
    heap (update_timestamp data d).2 !! div = Some e /\
    el_id e = Some (region_id b) /\
    board_texts b data = Ok rs /\
    heap d' !! div = Some (with_children [CElem t] e) /\
    length (heap (update_timestamp data d).2) <= t /\
    snap 5 (heap d') (CElem div)
    = Some (TElem (tag e) (el_id e) (style e) [table_tree (board_headers b) rs]).
Proof.
  intros Hrun Hreg. apply then_handler_inv in Hrun as [_ Hrun].
  destruct (update_timestamp data d).2 as [h rt cs] eqn:Ed1.
  destruct (region_el_id b _ div Hreg) as (e & He & Hid). simpl in He.
  destruct (render_leaders_region data h rt cs d' b div e Hrun Hreg He)
    as (rs & t & Htexts & Hown & Hle & Hblk).
  exists e, rs, t. repeat split; try done.
  by apply (snap_region _ _ _ t).
Qed.


(** C8. When the handler completes, each region that was found has lost
    whatever it held and holds exactly one child, a table the handler has
    just built for the region's leaderboard; the region element is otherwise
    as it was.  The region is emptied before the rows are built: if they
    cannot be built it is left empty. *)
Theorem region_holds_one_table (data : value) (d d' : dom) (b : board) (div : ref) :
  then_handler data d = (Ok tt, d') ->
  region b (update_timestamp data d).2 = Some div ->
  (exists e rs t,
     heap (update_timestamp data d).2 !! div = Some e /\
     board_texts b data = Ok rs /\
     heap d' !! div = Some (Element (tag e) (el_id e) (style e) [CElem t]) /\
     length (heap (update_timestamp data d).2) <= t /\
     snap 5 (heap d') (CElem div)
     = Some (TElem (tag e) (el_id e) (style e) [table_tree (board_headers b) rs])) /\
  (forall v h rt cs div0,
     match array_map v (board_row b) with
     | Throw err =>
         render_board b (Some div0) v (Dom h rt cs)
         = (Throw err, Dom (alter (with_children []) div0 h) rt cs)
     | Ok _ => True
     end).
Proof.
  intros Hrun Hreg. split.
  - destruct (then_handler_region _ d d' b div Hrun Hreg)
      as (e & rs & t & He & _ & Htexts & Hown & Hle & Hsnap).
    by exists e, rs, t.
  - intros v h rt cs div0.
    destruct (array_map v (board_row b)) as [rows|err] eqn:Emap; [done|].
    rewrite render_board_section. by apply render_section_throw.
Qed.


End HandlerClaims.

Section FailureClaims.
Context {number : Type} `{JSNumber number}.
Local Abbreviation value := (value number).

Lemma catch_handler_run err h rt cs c :
  find_id (S (length h)) h "leaders-container" (CElem rt) = Some c ->
  catch_handler (number := number) err (Dom h rt cs)
  = (Ok tt, Dom (alter (with_children [CText error_message]) c h) rt
              (cs ++ [("Error loading leaders:", err)])).
Proof.
  intros Hc. unfold catch_handler.
  erewrite bind_run by reflexivity.
  erewrite bind_run by apply getElementById_run.
  cbn [heap root]. rewrite Hc. reflexivity.
Qed.

Lemma main_failure (r : response) d :
  r = NetworkFailure \/ r = BadJSON ->
  exists err, main r d = catch_handler err d.
Proof.
  intros [-> | ->]; [exists TypeError|exists SyntaxError]; reflexivity.
Qed.

(** What [getElementById] finds once the children of [c] are replaced by
    children that are no elements is reached without going down from [c]. *)
Lemma find_id_avoiding (h : list element) (c : ref) (kids : list child) (id : string) :
  (forall b, CElem b ∉ kids) ->
  forall fuel x r,
    find_id fuel (alter (with_children kids) c h) id (CElem x) = Some r ->
    reach_avoiding h c x r.
Proof.
  intros Hkids fuel. induction fuel as [|fuel IH]; intros x r; [done|].
  cbn [find_id].
  destruct (alter (with_children kids) c h !! x) as [e'|] eqn:Ex; [|done].
  destruct (decide (el_id e' = Some id)) as [_|_].
  { intros [= <-]. constructor. }
  intros Hfind.
  assert (Hchild : exists b, CElem b ∈ children e' /\
            find_id fuel (alter (with_children kids) c h) id (CElem b) = Some r).
  { clear Ex. induction (children e') as [|ch chs IHchs]; simpl in Hfind; [done|].
    destruct (find_id fuel (alter (with_children kids) c h) id ch) as [r'|] eqn:Ech.
    - injection Hfind as ->. destruct ch as [s|b].
      + by destruct fuel.
      + exists b. split; [left|done].
    - destruct (IHchs Hfind) as (b & Hb & Hr). exists b. split; [by right|done]. }
  destruct Hchild as (b & Hb & Hr).
  destruct (decide (x = c)) as [->|Hne].
  - rewrite list_lookup_alter_eq in Ex.
    destruct (h !! c) as [e|]; [|done]. injection Ex as <-.
    by destruct (Hkids b).
  - rewrite list_lookup_alter_ne in Ex by done.
    apply (reach_child h c x e' b r Hne Ex Hb). by apply IH.
Qed.

(** C6. When the fetch or the parse fails, nothing runs but the rejection
    handler: the container, when the page has it, holds the error message
    and nothing else; a region whose id is carried inside the container
    only is no longer in the document, and an element outside the container
    is as it was; no element is created, so no leaderboard is rendered, not
    even in part. *)
Theorem fetch_failure_shows_message (r : response) (d : dom) (c : ref) :
  r = NetworkFailure \/ r = BadJSON ->
  find_id (S (length (heap d))) (heap d) "leaders-container" (CElem (root d)) = Some c ->
  exists err e d',
    main r d = catch_handler err d /\
    main r d = (Ok tt, d') /\
    heap d !! c = Some e /\
    heap d' !! c = Some (Element (tag e) (el_id e) (style e) [CText error_message]) /\
    snap 1 (heap d') (CElem c)
    = Some (TElem (tag e) (el_id e) (style e) [TText error_message]) /\
    length (heap d') = length (heap d) /\
    (forall r', r' <> c -> heap d' !! r' = heap d !! r') /\
    (forall b, inside_only d c (region_id b) -> region b d' = None).
Proof.
  intros Hr Hc. destruct (main_failure r d Hr) as [err Hmain].
  destruct (find_id_Some _ _ _ _ _ Hc) as (e & He & _).
  destruct d as [h rt cs]. simpl in Hc, He.
  exists err, e. eexists. split; [exact Hmain|].
  rewrite Hmain, (catch_handler_run err h rt cs c Hc).
  split; [reflexivity|]. simpl heap.
  assert (Hown : alter (with_children [CText error_message]) c h !! c
                 = Some (Element (tag e) (el_id e) (style e) [CText error_message])).
  { by rewrite list_lookup_alter_eq, He. }
  split; [done|]. split; [done|]. split.
  - by rewrite (snap_leaf 0 _ c _ [TText error_message] Hown).
  - split; [apply length_alter|]. split.
    + intros r' Hne. by apply list_lookup_alter_ne.
    + intros b Hin. unfold region. cbn [heap root]. rewrite length_alter.
      destruct (find_id (S (length h)) (alter (with_children [CText error_message]) c h)
                  (region_id b) (CElem rt)) as [r0|] eqn:Efind; [|done].
      exfalso.
      assert (Hreach : reach_avoiding h c rt r0).
      { apply (find_id_avoiding h c [CText error_message] (region_id b)) in Efind;
          [done|]. intros b0 Hb0. apply list_elem_of_singleton in Hb0. discriminate. }
      destruct (find_id_Some _ _ _ _ _ Efind) as (e0 & He0 & Hid0).
      destruct (decide (r0 = c)) as [->|Hne].
      * rewrite Hown in He0. injection He0 as <-. simpl in Hid0.
        exact (Hin c e He Hid0 Hreach).
      * rewrite list_lookup_alter_ne in He0 by done.
        exact (Hin r0 e0 He0 Hid0 Hreach).
Qed.

Lemma with_unit_undefined unit :
  with_unit (number := number) VUndefined unit = Ok (VStr ("undefined " +:+ unit)).
Proof. reflexivity. Qed.

Lemma with_unit_scalar (c : scalar) unit :
  with_unit (value_of_scalar c) unit = Ok (VStr (scalar_text c +:+ " " +:+ unit)).
Proof. unfold with_unit. by rewrite to_string_scalar. Qed.

(** The cell a template gives for a member of a flat record. *)
Lemma with_unit_field (fields : list (string * value)) k unit :
  flat_record fields ->
  exists cell,
    with_unit (default VUndefined (obj_get k fields)) unit = Ok cell /\
    (obj_get k fields = None -> cell = VStr ("undefined " +:+ unit)).
Proof.
  intros Hflat. destruct (obj_get k fields) as [v|] eqn:E; simpl.
  - destruct (Hflat k v E) as [c ->]. rewrite with_unit_scalar. eexists. by split.
  - eexists. by split.
Qed.

(** C7, as the script has it. In a flat record a missing [player], [team],
    [threes], [pts], [pts_for] or [gp] is no fault: a member read directly
    gives the cell value [undefined], shown as an empty cell, and a member
    read in a template gives the text [undefined] followed by the unit. The
    rows of the points-per-game and team leaderboards are built this way
    when [ppg] is a Number; without [ppg] building the row throws a
    TypeError. *)
Theorem missing_members_give_undefined_cells (fields : list (string * value)) (i : nat) :
  flat_record fields ->
  (exists row,
     pts_row (VObj fields) i = Ok row /\
     (obj_get "player" fields = None -> row !! 1 = Some VUndefined) /\
     (obj_get "team" fields = None -> row !! 2 = Some VUndefined) /\
     (obj_get "pts" fields = None -> row !! 3 = Some (VStr "undefined pts")) /\
     (obj_get "gp" fields = None -> row !! 4 = Some (VStr "undefined gp"))) /\
  (exists row,
     threes_row (VObj fields) i = Ok row /\
     (obj_get "player" fields = None -> row !! 1 = Some VUndefined) /\
     (obj_get "team" fields = None -> row !! 2 = Some VUndefined) /\
     (obj_get "threes" fields = None -> row !! 3 = Some VUndefined) /\
     (obj_get "gp" fields = None -> row !! 4 = Some (VStr "undefined gp"))) /\
  (forall n, obj_get "ppg" fields = Some (VNum n) ->
     exists row,
       ppg_row (VObj fields) i = Ok row /\
       (obj_get "player" fields = None -> row !! 1 = Some VUndefined) /\
       (obj_get "team" fields = None -> row !! 2 = Some VUndefined) /\
       (obj_get "pts" fields = None -> row !! 4 = Some (VStr "undefined pts")) /\
       (obj_get "gp" fields = None -> row !! 5 = Some (VStr "undefined gp"))) /\
  (forall n, obj_get "ppg" fields = Some (VNum n) ->
     exists row,
       team_row (VObj fields) i = Ok row /\
       (obj_get "team" fields = None -> row !! 1 = Some VUndefined) /\
       (obj_get "pts_for" fields = None -> row !! 3 = Some (VStr "undefined pts")) /\
       (obj_get "gp" fields = None -> row !! 4 = Some (VStr "undefined gp"))) /\
  (obj_get "ppg" fields = None ->
     ppg_row (VObj fields) i = Throw TypeError /\
     team_row (VObj fields) i = Throw TypeError) /\
  text_of (number := number) VUndefined = Ok "" /\
  (forall unit, text_of (number := number) (VStr ("undefined " +:+ unit))
                = Ok ("undefined " +:+ unit)).
Proof.
  intros Hflat.
  destruct (with_unit_field fields "pts" "pts" Hflat) as (cpts & Epts & Hpts).
  destruct (with_unit_field fields "gp" "gp" Hflat) as (cgp & Egp & Hgp).
  destruct (with_unit_field fields "pts_for" "pts" Hflat) as (cfor & Efor & Hfor).
  assert (Hundef : forall k, obj_get k fields = None ->
                             default VUndefined (obj_get k fields) = VUndefined).
  { by intros k ->. }
  split; [|split; [|split; [|split; [|split; [|split]]]]].
  - eexists. unfold pts_row. simpl get_prop. cbn [obind]. rewrite Epts, Egp.
    cbn [obind]. split; [reflexivity|]. simpl.
    repeat split; intros E; f_equal; auto.
  - eexists. unfold threes_row. simpl get_prop. cbn [obind]. rewrite Egp.
    cbn [obind]. split; [reflexivity|]. simpl.
    repeat split; intros E; f_equal; auto.
  - intros n En. eexists. unfold ppg_row. simpl get_prop. cbn [obind].
    rewrite En. simpl toFixed. cbn [obind]. simpl with_unit at 1. cbn [obind].
    rewrite Epts, Egp. cbn [obind]. split; [reflexivity|]. simpl.
    repeat split; intros E; f_equal; auto.
  - intros n En. eexists. unfold team_row. simpl get_prop. cbn [obind].
    rewrite En. simpl toFixed. cbn [obind]. simpl with_unit at 1. cbn [obind].
    rewrite Efor, Egp. cbn [obind]. split; [reflexivity|]. simpl.
    repeat split; intros E; f_equal; auto.
  - intros Eppg. split.
    + unfold ppg_row. simpl get_prop. cbn [obind]. by rewrite Eppg.
    + unfold team_row. simpl get_prop. cbn [obind]. by rewrite Eppg.
  - reflexivity.
  - reflexivity.
Qed.

Lemma flat_record_Forall (fields : list (string * value)) :
  Forall (fun kv => exists c, kv.2 = value_of_scalar c) fields -> flat_record fields.
Proof.
  intros Hall k v. induction Hall as [|[k' v'] rest [c Hc] _ IH]; simpl; [done|].
  destruct (obj_get k rest) as [w|]; [exact IH|].
  destruct (String.eqb k k'); [|done].
  intros [= <-]. by exists c.
Qed.

End FailureClaims.

(** ** When the handler completes *)

Section Completion.
Context {number : Type} `{JSNumber number}.
Local Abbreviation value := (value number).

Lemma text_of_member (fields : list (string * value)) k :
  flat_record fields ->
  exists s, text_of (default VUndefined (obj_get k fields)) = Ok s.
Proof.
  intros Hflat. destruct (obj_get k fields) as [v|] eqn:E; simpl.
  - destruct (Hflat k v E) as [c ->]. rewrite text_of_scalar. eauto.
  - eauto.
Qed.

Lemma with_unit_member (fields : list (string * value)) k unit :
  flat_record fields ->
  exists s, with_unit (default VUndefined (obj_get k fields)) unit = Ok (VStr s).
Proof.
  intros Hflat. destruct (obj_get k fields) as [v|] eqn:E; simpl.
  - destruct (Hflat k v E) as [c ->]. rewrite with_unit_scalar. eauto.
  - rewrite with_unit_undefined. eauto.
Qed.

(** A well-formed record gives a row, and the row converts to texts. *)
Lemma well_formed_record_row b (x : value) i :
  well_formed_record b x ->
  exists row texts, board_row b x i = Ok row /\ omap text_of row = Ok texts.
Proof.
  intros (fields & -> & Hflat & Hppg).
  destruct (text_of_member fields "player" Hflat) as [tplayer Eplayer].
  destruct (text_of_member fields "team" Hflat) as [tteam Eteam].
  destruct (text_of_member fields "threes" Hflat) as [tthrees Ethrees].
  destruct (with_unit_member fields "pts" "pts" Hflat) as [spts Epts].
  destruct (with_unit_member fields "pts_for" "pts" Hflat) as [sfor Efor].
  destruct (with_unit_member fields "gp" "gp" Hflat) as [sgp Egp].
  destruct b; simpl board_row.
  - destruct (Hppg eq_refl) as [n En].
    unfold ppg_row. simpl get_prop. cbn [obind]. rewrite En. simpl toFixed.
    cbn [obind]. simpl with_unit at 1. cbn [obind]. rewrite Epts, Egp. cbn [obind].
    eexists _, _. split; [reflexivity|]. simpl. rewrite Eplayer, Eteam. reflexivity.
  - unfold pts_row. simpl get_prop. cbn [obind]. rewrite Epts, Egp. cbn [obind].
    eexists _, _. split; [reflexivity|]. simpl. rewrite Eplayer, Eteam. reflexivity.
  - unfold threes_row. simpl get_prop. cbn [obind]. rewrite Egp. cbn [obind].
    eexists _, _. split; [reflexivity|]. simpl. rewrite Eplayer, Eteam, Ethrees.
    reflexivity.
  - destruct (Hppg eq_refl) as [n En].
    unfold team_row. simpl get_prop. cbn [obind]. rewrite En. simpl toFixed.
    cbn [obind]. simpl with_unit at 1. cbn [obind]. rewrite Efor, Egp. cbn [obind].
    eexists _, _. split; [reflexivity|]. simpl. rewrite Eteam. reflexivity.
Qed.

Lemma well_formed_records_rows b (xs : list value) : forall i,
  Forall (well_formed_record b) xs ->
  exists rows rs, map_from (board_row b) i xs = Ok rows /\
                  omap (omap text_of) rows = Ok rs.
Proof.
  induction xs as [|x xs IH]; intros i Hall.
  - by exists [], [].
  - apply Forall_cons in Hall as [Hx Hxs].
    destruct (well_formed_record_row b x i Hx) as (row & texts & Erow & Etexts).
    destruct (IH (S i) Hxs) as (rows & rs & Erows & Ers).
    exists (row :: rows), (texts :: rs). simpl.
    rewrite Erow. cbn [obind]. rewrite Erows. cbn [obind].
    split; [done|]. by rewrite Etexts, Ers.
Qed.

Lemma well_formed_feed_texts (data : value) b :
  well_formed_feed data -> exists rs, board_texts b data = Ok rs.
Proof.
  intros (fields & -> & _ & Hboards).
  destruct (Hboards b) as (xs & Ev & Hall).
  destruct (well_formed_records_rows b xs 0 Hall) as (rows & rs & Erows & Ers).
  exists rs. unfold board_texts. rewrite Ev. cbn [obind]. simpl array_map.
  rewrite Erows. done.
Qed.

Lemma render_board_completes b div (v : value) rs h rt cs :
  (forall dd, div = Some dd -> dd < length h) ->
  (let? rows := array_map v (board_row b) in omap (omap text_of) rows) = Ok rs ->
  exists h1,
    render_board b div v (Dom h rt cs) = (Ok tt, Dom h1 rt cs) /\
    length h <= length h1.
Proof.
  intros Hlt Htexts. rewrite render_board_section. destruct div as [dd|].
  - destruct (array_map v (board_row b)) as [rows|] eqn:Erows; [|done].
    simpl in Htexts.
    rewrite (render_section_run dd v _ _ rows (board_headers b) rs);
      [|by apply Hlt|done|apply omap_text_of_VStr|done].
    eexists. split; [reflexivity|]. rewrite length_app, length_alter. lia.
  - exists h. by rewrite render_section_None.
Qed.

(** The four sections complete when the leaderboards of the regions that
    are there give rows and the rows convert to texts. *)
Lemma render_leaders_completes (data : value) d :
  (forall b, exists v, board_value b data = Ok v) ->
  (forall b div, region b d = Some div -> exists rs, board_texts b data = Ok rs) ->
  (render_leaders data d).1 = Ok tt.
Proof.
  intros Hvalues Htexts. destruct d as [h rt cs].
  destruct (Hvalues PointsPerGame) as [ppg E1]. destruct (Hvalues PointsTotal) as [pts E2].
  destruct (Hvalues ThreePointers) as [threes E3]. destruct (Hvalues TeamOffense) as [teamOff E4].
  simpl in E1, E2, E3, E4.
  assert (Hsec : forall b v h0, board_value b data = Ok v -> length h <= length h0 ->
            exists h1, render_board b (region b (Dom h rt cs)) v (Dom h0 rt cs)
                       = (Ok tt, Dom h1 rt cs) /\ length h <= length h1).
  { intros b v h0 Ev Hle.
    destruct (region b (Dom h rt cs)) as [dd|] eqn:Ereg.
    - destruct (Htexts b dd Ereg) as [rs Ers]. unfold board_texts in Ers.
      rewrite Ev in Ers. cbn [obind] in Ers.
      destruct (render_board_completes b (Some dd) v rs h0 rt cs) as (h1 & Hrun & Hlen);
        [|done|].
      + intros ? [= <-]. apply region_lt in Ereg. simpl in Ereg. lia.
      + exists h1. split; [done|lia].
    - exists h0. split; [by destruct b|done]. }
  unfold render_leaders.
  do 4 (erewrite bind_run by apply getElementById_run).
  cbn [heap root]. unfold lift.
  erewrite bind_run by (by rewrite E1). erewrite bind_run by (by rewrite E2).
  erewrite bind_run by (by rewrite E3). erewrite bind_run by (by rewrite E4).
  destruct (Hsec PointsPerGame ppg h E1 (le_n _)) as (h1 & R1 & L1).
  destruct (Hsec PointsTotal pts h1 E2 L1) as (h2 & R2 & L2).
  destruct (Hsec ThreePointers threes h2 E3 L2) as (h3 & R3 & L3).
  destruct (Hsec TeamOffense teamOff h3 E4 L3) as (h4 & R4 & L4).
  unfold region in R1, R2, R3, R4. cbn [heap root render_board region_id] in R1, R2, R3, R4.
  erewrite bind_run by exact R1. erewrite bind_run by exact R2.
  erewrite bind_run by exact R3. by rewrite R4.
Qed.

Lemma update_timestamp_completes (data : value) d :
  well_formed_feed data -> (update_timestamp data d).1 = Ok tt.
Proof.
  intros (fields & -> & Hgen & _). unfold update_timestamp.
  erewrite bind_run by apply getElementById_run.
  destruct (find_id _ _ _ _) as [el|]; [|done].
  rewrite bind_cases. unfold lift. simpl get_prop.
  destruct (obj_get "generated_at" fields) as [v|]; cbv beta iota; unfold default; cbn [from_option id].
  - destruct (Hgen v eq_refl) as [c ->].
    destruct (truthy (value_of_scalar c)); [|done].
    unfold set_textContent. rewrite bind_cases. unfold lift.
    by rewrite text_of_scalar.
  - done.
Qed.

(** On a well-formed feed the fulfilment handler runs to its end, whatever
    the page is. *)
Lemma then_handler_completes (data : value) d :
  well_formed_feed data -> (then_handler data d).1 = Ok tt.
Proof.
  intros Hwf. unfold then_handler. rewrite bind_cases.
  assert (Hts := update_timestamp_completes data d Hwf).
  destruct (update_timestamp data d) as [[[]|] d1]; [|done].
  apply render_leaders_completes.
  - intros b. destruct Hwf as (fields & -> & _ & Hboards).
    destruct (Hboards b) as (xs & Ev & _). eauto.
  - intros b div _. by apply well_formed_feed_texts.
Qed.

End Completion.

(** * The claims on concrete inputs *)

Lemma makeTable_renders_in_order_witness :
  (forall row, row ∈ scenario_rows -> length row = length scenario_headers) /\
  exists t d' table,
    makeTable (map VStr scenario_headers) (map (map value_of_scalar) scenario_rows)
      demo_page = (Ok t, d') /\
    snap 4 (heap d') (CElem t) = Some table /\
    header_texts table = scenario_headers /\
    body_texts table = [["1"; "A. Example"; "XYZ"; "23.4 ppg"; "812 pts"; "35 gp"]].
Proof.
  assert (Hlen : forall row, row ∈ scenario_rows -> length row = length scenario_headers).
  { intros row Hin. apply list_elem_of_singleton in Hin. subst row. reflexivity. }
  split; [exact Hlen|].
  destruct (makeTable_renders_in_order scenario_headers scenario_rows demo_page Hlen)
    as (t & d' & table & Hrun & Hsnap & _ & _ & Hh & Hb & _).
  exists t, d', table. rewrite Hb. repeat split; assumption || reflexivity.
Defined.


(** On the demonstration page the four regions are inside the container. *)
Lemma demo_page_regions_inside (b : board) : inside_only demo_page 2 (region_id b).
Proof.
  intros r e He Hid Hreach. unfold demo_page in *. cbn [heap root] in *.
  inversion Hreach as [|a e0 b0 r0 Hne0 He0 Hb0 Hreach0]; subst.
  { simpl in He. injection He as <-. by destruct b. }
  simpl in He0. injection He0 as <-. cbn [children] in Hb0.
  apply elem_of_cons in Hb0 as [[= ->]|Hb0].
  { inversion Hreach0 as [|a e1 b1 r1 Hne1 He1 Hb1 Hreach1]; subst.
    - simpl in He. injection He as <-. by destruct b.
    - simpl in He1. injection He1 as <-. cbn [children] in Hb1.
      apply list_elem_of_singleton in Hb1. discriminate. }
  apply list_elem_of_singleton in Hb0 as [= ->].
  inversion Hreach0 as [|a e1 b1 r1 Hne1 He1 Hb1 Hreach1]; subst.
  - simpl in He. injection He as <-. by destruct b.
  - done.
Qed.

Lemma fetch_failure_shows_message_witness :
  find_id (S (length (heap demo_page))) (heap demo_page) "leaders-container"
    (CElem (root demo_page)) = Some 2 /\
  (main (number := Z) BadJSON demo_page).1 = Ok tt /\
  snap 1 (heap (main (number := Z) BadJSON demo_page).2) (CElem 2)
  = Some (TElem "div" (Some "leaders-container") [] [TText error_message]) /\
  length (heap (main (number := Z) BadJSON demo_page).2) = 7 /\
  (forall b, inside_only demo_page 2 (region_id b)) /\
  (forall b, region b (main (number := Z) BadJSON demo_page).2 = None).
Proof.
  assert (Hc : find_id (S (length (heap demo_page))) (heap demo_page) "leaders-container"
                 (CElem (root demo_page)) = Some 2) by (vm_compute; reflexivity).
  split; [exact Hc|].
  destruct (fetch_failure_shows_message (number := Z) BadJSON demo_page 2
              (or_intror eq_refl) Hc)
    as (err & e & d' & _ & Hmain & He & _ & Hsnap & Hlen & _ & Hregions).
  vm_compute in He. injection He as <-.
  split; [rewrite Hmain; reflexivity|].
  split; [rewrite Hmain; exact Hsnap|].
  split; [rewrite Hmain; exact Hlen|].
  split; [exact demo_page_regions_inside|].
  intros b. rewrite Hmain. apply Hregions, demo_page_regions_inside.
Defined.

Lemma missing_members_give_undefined_cells_witness :
  flat_record record_only_ppg /\
  ppg_row (VObj record_only_ppg) 0
  = Ok [VNum 1%Z; VUndefined; VUndefined; VStr "23.0 ppg";
        VStr "undefined pts"; VStr "undefined gp"] /\
  pts_row (VObj record_only_ppg) 0
  = Ok [VNum 1%Z; VUndefined; VUndefined; VStr "undefined pts"; VStr "undefined gp"] /\
  exists row, threes_row (VObj record_only_ppg) 0 = Ok row /\ row !! 3 = Some VUndefined.
Proof.
  assert (Hflat : flat_record record_only_ppg).
  { apply flat_record_Forall. repeat constructor. by exists (SNum 23%Z). }
  split; [exact Hflat|]. split; [reflexivity|]. split; [reflexivity|].
  destruct (missing_members_give_undefined_cells record_only_ppg 0 Hflat)
    as (_ & (row & Hrow & _ & _ & Hthrees & _) & _).
  exists row. split; [exact Hrow|]. apply Hthrees. reflexivity.
Defined.

(** C7 as the specification states it fails on a record without [ppg]:
    building its row throws, the handler stops, and the page ends up with
    the error message instead of leaderboards. *)
Lemma record_without_ppg_throws :
  flat_record record_without_ppg /\
  obj_get "ppg" record_without_ppg = None /\
  ppg_row (VObj record_without_ppg) 0 = Throw TypeError /\
  (then_handler doc_record_without_ppg demo_page).1 = Throw TypeError /\
  snap 2 (heap (main (Document doc_record_without_ppg) demo_page).2) (CElem 2)
  = Some (TElem "div" (Some "leaders-container") [] [TText error_message]).
Proof.
  split.
  { apply flat_record_Forall. repeat constructor;
      (by exists (SStr "A. Example")) || (by exists (SStr "XYZ"))
      || (by exists (SNum 812%Z)) || (by exists (SNum 35%Z)). }
  repeat split; vm_compute; reflexivity.
Qed.

Lemma region_holds_one_table_witness :
  (then_handler demo_doc demo_page).1 = Ok tt /\
  region PointsPerGame (update_timestamp demo_doc demo_page).2 = Some 3 /\
  snap 5 (heap (then_handler demo_doc demo_page).2) (CElem 3)
  = Some (TElem "div" (Some "leaders-ppg") []
            [table_tree ["#"; "Player"; "Team"; "PPG"; "Total Pts"; "GP"]
               [["1"; "A. Example"; "XYZ"; "23.0 ppg"; "812 pts"; "35 gp"];
                ["2"; "B. Sample"; "ABC"; "21.0 ppg"; "630 pts"; "30 gp"]]]).
Proof.
  assert (Hrun : then_handler demo_doc demo_page
                 = (Ok tt, (then_handler demo_doc demo_page).2))
    by (vm_compute; reflexivity).
  assert (Hreg : region PointsPerGame (update_timestamp demo_doc demo_page).2 = Some 3)
    by (vm_compute; reflexivity).
  split; [vm_compute; reflexivity|]. split; [exact Hreg|].
  destruct (region_holds_one_table demo_doc demo_page _ PointsPerGame 3 Hrun Hreg)
    as ((e & rs & t & He & Htexts & _ & _ & Hsnap) & _).
  vm_compute in He. injection He as <-.
  vm_compute in Htexts. injection Htexts as <-. exact Hsnap.
Defined.



(** The demonstration document is a well-formed feed, so the handler
    completes on it on every page. *)
Lemma demo_doc_well_formed : well_formed_feed demo_doc.
Proof.
  assert (Ha : flat_record player_a).
  { apply flat_record_Forall. unfold player_a.
    repeat (apply Forall_cons_2;
            [simpl; (by eexists (SStr _)) || (by eexists (SNum _))|]).
    apply Forall_nil_2. }
  assert (Hb : flat_record player_b).
  { apply flat_record_Forall. unfold player_b.
    repeat (apply Forall_cons_2;
            [simpl; (by eexists (SStr _)) || (by eexists (SNum _))|]).
    apply Forall_nil_2. }
  assert (Ht : flat_record team_xyz).
  { apply flat_record_Forall. unfold team_xyz.
    repeat (apply Forall_cons_2;
            [simpl; (by eexists (SStr _)) || (by eexists (SNum _))|]).
    apply Forall_nil_2. }
  eexists. split; [reflexivity|]. split.
  - intros v Hv. vm_compute in Hv. injection Hv as <-. by exists (SStr "2024-01-05").
  - intros b. destruct b; (eexists; split; [reflexivity|]);
      repeat apply Forall_cons_2; try apply Forall_nil_2;
      (eexists; split; [reflexivity|]; split; [assumption|]);
      intros _; eexists; reflexivity.
Qed.

(** * More of the script's behaviour *)

(** ** makeTable and the store it is given *)

Section TableFrame.
Context {number : Type} `{JSNumber number}.
Local Abbreviation value := (value number).

Lemma th_callback_frame p (c : value) h0 blk rt cs :
  exists blk',
    th_callback (length h0 + p) c (Dom (h0 ++ blk) rt cs)
    = (conv_outcome (text_of c), Dom (h0 ++ blk') rt cs).
Proof.
  unfold th_callback.
  erewrite bind_run by apply createElement_run.
  destruct (text_of c) as [s|e] eqn:Ec.
  - erewrite bind_run by (apply set_textContent_run, Ec).
    unfold set_style, appendChild.
    do 3 (erewrite bind_run by apply update_run).
    rewrite update_run. by eexists.
  - erewrite bind_throw; [by eexists|].
    unfold set_textContent. erewrite bind_throw; [reflexivity|].
    unfold lift. by rewrite Ec.
Qed.

Lemma td_callback_frame p (c : value) h0 blk rt cs :
  exists blk',
    td_callback (length h0 + p) c (Dom (h0 ++ blk) rt cs)
    = (conv_outcome (text_of c), Dom (h0 ++ blk') rt cs).
Proof.
  unfold td_callback.
  erewrite bind_run by apply createElement_run.
  destruct (text_of c) as [s|e] eqn:Ec.
  - erewrite bind_run by (apply set_textContent_run, Ec).
    unfold set_style, appendChild.
    do 2 (erewrite bind_run by apply update_run).
    rewrite update_run. by eexists.
  - erewrite bind_throw; [by eexists|].
    unfold set_textContent. erewrite bind_throw; [reflexivity|].
    unfold lift. by rewrite Ec.
Qed.

(** A loop of callbacks that only add to the store after [h0] only adds to
    the store after [h0], and stops at the first conversion that throws. *)
Lemma forEach_frame {A X} (conv : A -> outcome X) (body : A -> M unit) h0 rt cs :
  (forall x blk, exists blk',
     body x (Dom (h0 ++ blk) rt cs) = (conv_outcome (conv x), Dom (h0 ++ blk') rt cs)) ->
  forall xs blk, exists blk',
    forEach xs body (Dom (h0 ++ blk) rt cs)
    = (conv_outcome (omap conv xs), Dom (h0 ++ blk') rt cs).
Proof.
  intros Hbody. induction xs as [|x xs IH]; intros blk; simpl.
  - by exists blk.
  - destruct (Hbody x blk) as [blk1 E1]. rewrite bind_cases, E1.
    destruct (conv x) as [y|e]; simpl; [|by exists blk1].
    destruct (IH blk1) as [blk2 E2]. rewrite E2.
    exists blk2. by destruct (omap conv xs).
Qed.

Lemma tr_callback_frame p (row : list value) h0 blk rt cs :
  exists blk',
    tr_callback (length h0 + p) row (Dom (h0 ++ blk) rt cs)
    = (conv_outcome (omap text_of row), Dom (h0 ++ blk') rt cs).
Proof.
  unfold tr_callback.
  erewrite bind_run by apply createElement_run.
  destruct (forEach_frame text_of (td_callback (length h0 + length blk)) h0 rt cs
              (fun c b => td_callback_frame (length blk) c h0 b rt cs)
              row (blk ++ [Element "tr" None [] []])) as [blk1 E1].
  rewrite bind_cases, E1.
  destruct (omap text_of row); simpl; [|by exists blk1].
  unfold appendChild. rewrite update_run. by eexists.
Qed.

(** Whatever the headers and the cells are, a call only appends to the
    store, and its outcome is the one the conversions decide. *)
Lemma makeTable_frame (headers : list value) (rows : list (list value)) h rt cs :
  exists blk,
    makeTable headers rows (Dom h rt cs)
    = (makeTable_outcome headers rows (length h), Dom (h ++ blk) rt cs).
Proof.
  rewrite makeTable_unfold. unfold makeTable_outcome.
  replace (Dom h rt cs) with (Dom (h ++ []) rt cs) by (by rewrite app_nil_r).
  erewrite bind_run by apply createElement_run.
  unfold set_style.
  do 3 (erewrite bind_run by apply update_run).
  do 2 (erewrite bind_run by apply createElement_run).
  rewrite bind_cases.
  match goal with |- context [forEach headers ?b (Dom (h ++ ?blk0) rt cs)] =>
    destruct (forEach_frame text_of b h rt cs
                (fun c b0 => th_callback_frame _ c h b0 rt cs) headers blk0) as [blk1 E1]
  end.
  rewrite E1.
  destruct (omap text_of headers) as [hs|e]; simpl conv_outcome; cbv iota beta;
    [|by exists blk1].
  unfold appendChild.
  do 2 (erewrite bind_run by apply update_run).
  erewrite bind_run by apply createElement_run.
  rewrite bind_cases.
  match goal with |- context [forEach rows ?b (Dom (h ++ ?blk0) rt cs)] =>
    destruct (forEach_frame (omap text_of) b h rt cs
                (fun r b0 => tr_callback_frame _ r h b0 rt cs) rows blk0) as [blk2 E2]
  end.
  rewrite E2.
  destruct (omap (omap text_of) rows) as [rs|e]; simpl conv_outcome; cbv iota beta;
    [|by exists blk2].
  erewrite bind_run by apply update_run.
  unfold ret. eexists. f_equal. f_equal. simpl. lia.
Qed.

End TableFrame.

Section TableExtras.
Context {number : Type} `{JSNumber number}.
Local Abbreviation value := (value number).

Lemma text_of_primitive (v : value) : primitive v = true -> exists s, text_of v = Ok s.
Proof. destruct v; simpl; try discriminate; eauto. Qed.

Lemma omap_text_of_primitives (cells : list value) :
  forallb primitive cells = true -> exists texts, omap text_of cells = Ok texts.
Proof.
  induction cells as [|c cells IH]; simpl; [eauto|].
  intros Hall. apply andb_prop in Hall as [Hc Hcells].
  destruct (text_of_primitive c Hc) as [s ->]. destruct (IH Hcells) as [ts ->].
  simpl. eauto.
Qed.

Lemma omap_rows_primitives (rows : list (list value)) :
  forallb (forallb primitive) rows = true ->
  exists rs, omap (omap text_of) rows = Ok rs.
Proof.
  induction rows as [|row rows IH]; simpl; [eauto|].
  intros Hall. apply andb_prop in Hall as [Hrow Hrows].
  destruct (omap_text_of_primitives row Hrow) as [ts ->]. destruct (IH Hrows) as [rs ->].
  simpl. eauto.
Qed.

Lemma length_rows_block rs : forall base,
  length (rows_block base rs) = length rs + list_sum (map length rs).
Proof.
  induction rs as [|r rs IH]; intros base; [done|].
  rewrite rows_block_cons, length_app, IH. unfold row_block. simpl.
  rewrite length_map. lia.
Qed.

Lemma length_table_block n hs rs :
  length (table_block n hs rs) = 4 + length hs + length rs + list_sum (map length rs).
Proof.
  unfold table_block. simpl. rewrite length_app, length_map. simpl.
  rewrite length_rows_block. lia.
Qed.

(** X1. [makeTable] has no effect on what is already there: whether it
    returns or throws, every element of the store is as it was, the document
    root and the console are untouched, and the store has only grown.  The
    table it returns is an element that did not exist before the call. *)
Theorem makeTable_only_appends (headers : list value) (rows : list (list value)) (d : dom) :
  exists blk,
    (makeTable headers rows d).2 = Dom (heap d ++ blk) (root d) (console d) /\
    (forall r e, heap d !! r = Some e -> heap (makeTable headers rows d).2 !! r = Some e) /\
    match (makeTable headers rows d).1 with
    | Ok t => t = length (heap d) /\ heap d !! t = None
    | Throw _ => True
    end.
Proof.
  destruct d as [h rt cs]. destruct (makeTable_frame headers rows h rt cs) as [blk E].
  exists blk. rewrite E. cbn [fst snd heap root console]. split; [done|]. split.
  - intros r e Hr. by apply lookup_app_l_Some.
  - unfold makeTable_outcome.
    destruct (omap text_of headers); [|done].
    destruct (omap (omap text_of) rows); [|done].
    split; [done|]. by apply lookup_ge_None.
Qed.

(** X2. A call that returns has built, from new elements only, a [table]
    with the three table styles whose children are a [thead] holding one
    [tr] of [th] cells and a [tbody] holding one [tr] of [td] cells per
    row; each cell carries its style and the text its value converts to, no
    element has an id, and exactly one element was created per header, per
    row and per cell besides the four of the frame. *)
Theorem makeTable_builds_styled_table (headers : list value) (rows : list (list value))
  (d d' : dom) (t : ref) :
  makeTable headers rows d = (Ok t, d') ->
  exists hs rs,
    omap text_of headers = Ok hs /\
    omap (omap text_of) rows = Ok rs /\
    snap 4 (heap d') (CElem t)
    = Some (TElem "table" None
              [("borderCollapse", "collapse"); ("marginBottom", "12px");
               ("fontSize", "0.9rem")]
              [TElem "thead" None []
                 [TElem "tr" None []
                    (map (fun s => TElem "th" None
                                     [("borderBottom", "1px solid #ccc");
                                      ("padding", "4px 6px"); ("textAlign", "left")]
                                     (text_nodes s)) hs)];
               TElem "tbody" None []
                 (map (fun r => TElem "tr" None []
                                  (map (fun s => TElem "td" None
                                                   [("padding", "3px 6px");
                                                    ("borderBottom", "1px solid #eee")]
                                                   (text_nodes s)) r)) rs)]) /\
    length (heap d')
    = length (heap d) + 4 + length headers + length rows + list_sum (map length rows).
Proof.
  intros Hrun. destruct d as [h rt cs].
  assert (Hfst := makeTable_fst headers rows (Dom h rt cs)).
  rewrite Hrun in Hfst. unfold makeTable_outcome in Hfst. simpl in Hfst.
  destruct (omap text_of headers) as [hs|] eqn:Eh; [|done].
  destruct (omap (omap text_of) rows) as [rs|] eqn:Er; [|done].
  rewrite (makeTable_run headers rows hs rs) in Hrun by done.
  injection Hrun as <- <-. exists hs, rs. split; [done|]. split; [done|]. split.
  - simpl heap.
    rewrite (snap_table (h ++ table_block (length h) hs rs) (length h) hs rs); [done|].
    intros k e Hk. rewrite lookup_app_r by lia.
    by replace (length h + k - length h) with k by lia.
  - simpl heap. rewrite length_app, length_table_block.
    rewrite (omap_length _ _ _ Eh), (omap_length _ _ _ Er).
    assert (Hlens : map length rs = map length rows).
    { clear -Er. revert rs Er. induction rows as [|row rows IH]; intros rs; simpl.
      - by intros [= <-].
      - destruct (omap text_of row) as [ts|] eqn:Et; simpl; [|done].
        destruct (omap (omap text_of) rows) as [rs'|]; simpl; [|done].
        intros [= <-]. simpl. rewrite (omap_length _ _ _ Et). f_equal. by apply IH. }
    rewrite Hlens. lia.
Qed.

(** X3. Cells that are numbers, strings, booleans, [null] or [undefined]
    never make [makeTable] throw, whatever the shape of the rows. *)
Theorem makeTable_primitive_cells (headers : list value) (rows : list (list value))
  (d : dom) :
  forallb primitive headers = true ->
  forallb (forallb primitive) rows = true ->
  (makeTable headers rows d).1 = Ok (length (heap d)).
Proof.
  intros Hh Hr. rewrite makeTable_fst. unfold makeTable_outcome.
  destruct (omap_text_of_primitives headers Hh) as [hs ->].
  by destruct (omap_rows_primitives rows Hr) as [rs ->].
Qed.

End TableExtras.

(** ** What the handlers leave alone *)

Lemma keeps_env_ret {A} (a : A) : keeps_env (ret a).
Proof. by intros d. Qed.

Lemma keeps_env_lift {A} (o : outcome A) : keeps_env (lift o).
Proof. by intros d. Qed.

Lemma keeps_env_update r f : keeps_env (update r f).
Proof. by intros d. Qed.

Lemma keeps_env_createElement t : keeps_env (createElement t).
Proof. by intros d. Qed.

Lemma keeps_env_getElementById id : keeps_env (getElementById id).
Proof. by intros d. Qed.

Lemma keeps_env_bind {A B} (m : M A) (k : A -> M B) :
  keeps_env m -> (forall a, keeps_env (k a)) -> keeps_env (bind m k).
Proof.
  intros Hm Hk d. rewrite bind_cases. specialize (Hm d).
  destruct (m d) as [[a|e] d1]; simpl in Hm; [|done].
  destruct Hm as [Hr1 Hc1]. destruct (Hk a d1) as [Hr Hc]. split; congruence.
Qed.

Section Environment.
Context {number : Type} `{JSNumber number}.
Local Abbreviation value := (value number).

Lemma keeps_env_makeTable (headers : list value) (rows : list (list value)) :
  keeps_env (makeTable headers rows).
Proof.
  intros [h rt cs]. destruct (makeTable_frame headers rows h rt cs) as [blk ->]. done.
Qed.

Lemma keeps_env_set_textContent r (v : value) : keeps_env (set_textContent r v).
Proof.
  apply keeps_env_bind; [apply keeps_env_lift|intros; apply keeps_env_update].
Qed.

Lemma keeps_env_render_board b div (v : value) : keeps_env (render_board b div v).
Proof.
  rewrite render_board_section. destruct div as [dd|]; [|apply keeps_env_ret].
  unfold render_section.
  apply keeps_env_bind; [apply keeps_env_update|intros _].
  apply keeps_env_bind; [apply keeps_env_lift|intros rows].
  apply keeps_env_bind; [apply keeps_env_makeTable|intros t].
  apply keeps_env_update.
Qed.

Lemma keeps_env_update_timestamp (data : value) : keeps_env (update_timestamp data).
Proof.
  unfold update_timestamp.
  apply keeps_env_bind; [apply keeps_env_getElementById|intros [el|]];
    [|apply keeps_env_ret].
  apply keeps_env_bind; [apply keeps_env_lift|intros v].
  destruct (truthy v); [apply keeps_env_set_textContent|apply keeps_env_ret].
Qed.

Lemma keeps_env_render_leaders (data : value) : keeps_env (render_leaders data).
Proof.
  unfold render_leaders.
  do 4 (apply keeps_env_bind; [apply keeps_env_getElementById|intros ?]).
  do 4 (apply keeps_env_bind; [apply keeps_env_lift|intros ?]).
  apply keeps_env_bind; [apply (keeps_env_render_board PointsPerGame)|intros _].
  apply keeps_env_bind; [apply (keeps_env_render_board PointsTotal)|intros _].
  apply keeps_env_bind; [apply (keeps_env_render_board ThreePointers)|intros _].
  apply (keeps_env_render_board TeamOffense).
Qed.

Lemma keeps_env_then_handler (data : value) : keeps_env (then_handler data).
Proof.
  unfold then_handler.
  apply keeps_env_bind; [apply keeps_env_update_timestamp|intros _].
  apply keeps_env_render_leaders.
Qed.

(** The rejection handler in full: it logs, and writes the message when the
    page has the container. *)
Lemma catch_handler_cases err d :
  catch_handler (number := number) err d
  = (Ok tt,
     Dom (match container_element d with
          | Some c => alter (with_children [CText error_message]) c (heap d)
          | None => heap d
          end)
         (root d) (console d ++ [("Error loading leaders:", err)])).
Proof.
  destruct d as [h rt cs]. unfold container_element. cbn [heap root console].
  destruct (find_id (S (length h)) h "leaders-container" (CElem rt)) as [c|] eqn:Ec.
  - by apply catch_handler_run.
  - unfold catch_handler.
    erewrite bind_run by reflexivity.
    erewrite bind_run by apply getElementById_run.
    cbn [heap root]. by rewrite Ec.
Qed.

(** X9. The promise chain never ends in an unhandled rejection.  When the
    handler completes, [main] is the handler and the console is left alone;
    when the fetch, the parse or the handler fails, the error is logged
    exactly once, with the label of the script. *)
Theorem main_always_settles (r : response) (d : dom) :
  (main r d).1 = Ok tt /\
  root (main r d).2 = root d /\
  match r with
  | NetworkFailure =>
      console (main r d).2 = console d ++ [("Error loading leaders:", TypeError)]
  | BadJSON =>
      console (main r d).2 = console d ++ [("Error loading leaders:", SyntaxError)]
  | Document data =>
      match (then_handler data d).1 with
      | Ok _ =>
          main r d = then_handler data d /\ console (main r d).2 = console d
      | Throw e =>
          console (main r d).2 = console d ++ [("Error loading leaders:", e)]
      end
  end.
Proof.
  destruct r as [| |data].
  - change (main NetworkFailure d) with (catch_handler (number := number) TypeError d).
    by rewrite catch_handler_cases.
  - change (main BadJSON d) with (catch_handler (number := number) SyntaxError d).
    by rewrite catch_handler_cases.
  - destruct (keeps_env_then_handler data d) as [Hroot Hcons].
    unfold main, catch. rewrite bind_cases. unfold fetch_json, ret.
    destruct (then_handler data d) as [[[]|e] d1] eqn:Erun; simpl in *.
    + done.
    + rewrite catch_handler_cases. simpl. by rewrite Hroot, Hcons.
Qed.

(** X10. When the handler throws, what it had done by then stays, and the
    rejection handler runs on it: if the container is still found, its
    content is replaced by the message, and no other element changes; if it
    is not, nothing changes at all. *)
Theorem handler_failure_shows_message (data : value) (d d1 : dom) (e : error) :
  then_handler data d = (Throw e, d1) ->
  (main (Document data) d).1 = Ok tt /\
  heap (main (Document data) d).2
  = match container_element d1 with
    | Some c => alter (with_children [CText error_message]) c (heap d1)
    | None => heap d1
    end /\
  length (heap (main (Document data) d).2) = length (heap d1) /\
  (forall c ec,
     container_element d1 = Some c -> heap d1 !! c = Some ec ->
     snap 1 (heap (main (Document data) d).2) (CElem c)
     = Some (TElem (tag ec) (el_id ec) (style ec) [TText error_message])) /\
  (forall r, container_element d1 <> Some r ->
             heap (main (Document data) d).2 !! r = heap d1 !! r).
Proof.
  intros Hrun.
  assert (Hmain : main (Document data) d = catch_handler e d1).
  { unfold main, catch. rewrite bind_cases. unfold fetch_json, ret. by rewrite Hrun. }
  rewrite Hmain, catch_handler_cases. cbn [fst snd heap].
  split; [done|]. split; [done|].
  destruct (container_element d1) as [c|].
  2:{ split; [reflexivity|]. split; [intros c ec Hc; discriminate Hc|].
      intros r _. reflexivity. }
  split; [apply length_alter|]. split.
  - intros c' ec [= <-] Hec.
    assert (Hown : alter (with_children [CText error_message]) c (heap d1) !! c
                   = Some (Element (tag ec) (el_id ec) (style ec) [CText error_message]))
      by (by rewrite list_lookup_alter_eq, Hec).
    by rewrite (snap_leaf 0 _ c _ [TText error_message] Hown).
  - intros r Hne. apply list_lookup_alter_ne. congruence.
Qed.

End Environment.

(** ** Documents of unexpected shape *)

Section Shapes.
Context {number : Type} `{JSNumber number}.
Local Abbreviation value := (value number).

Lemma update_timestamp_cases (data : value) h rt cs :
  update_timestamp data (Dom h rt cs)
  = match find_id (S (length h)) h "leaders-updated" (CElem rt) with
    | None => (Ok tt, Dom h rt cs)
    | Some el =>
        match get_prop data "generated_at" with
        | Throw e => (Throw e, Dom h rt cs)
        | Ok v =>
            if truthy v then
              match text_of v with
              | Throw e => (Throw e, Dom h rt cs)
              | Ok s => (Ok tt, Dom (alter (with_children (text_children s)) el h) rt cs)
              end
            else (Ok tt, Dom h rt cs)
        end
    end.
Proof.
  unfold update_timestamp.
  erewrite bind_run by apply getElementById_run. cbn [heap root].
  destruct (find_id (S (length h)) h "leaders-updated" (CElem rt)) as [el|]; [|done].
  rewrite bind_cases. unfold lift.
  destruct (get_prop data "generated_at") as [v|e]; [|done].
  destruct (truthy v); [|done].
  unfold set_textContent. rewrite bind_cases. unfold lift.
  by destruct (text_of v).
Qed.

(** X5. The timestamp step writes to the timestamp element and to nothing
    else, and creates nothing.  Without the element, or when [generated_at]
    is missing or falsy (empty string, [null], [false], zero), it does
    nothing at all; with the element and a non-empty string, the element's
    content becomes exactly that string. *)
Theorem update_timestamp_writes_timestamp_only (data : value) (d : dom) :
  length (heap (update_timestamp data d).2) = length (heap d) /\
  (forall r, updated_element d <> Some r ->
             heap (update_timestamp data d).2 !! r = heap d !! r) /\
  (updated_element d = None -> update_timestamp data d = (Ok tt, d)) /\
  (forall fields,
     data = VObj fields ->
     truthy (default VUndefined (obj_get "generated_at" fields)) = false ->
     update_timestamp data d = (Ok tt, d)) /\
  (forall fields el e s,
     data = VObj fields ->
     updated_element d = Some el ->
     heap d !! el = Some e ->
     obj_get "generated_at" fields = Some (VStr s) ->
     s <> "" ->
     (update_timestamp data d).1 = Ok tt /\
     snap 1 (heap (update_timestamp data d).2) (CElem el)
     = Some (TElem (tag e) (el_id e) (style e) [TText s])).
Proof.
  destruct d as [h rt cs]. unfold updated_element. cbn [heap root].
  rewrite update_timestamp_cases.
  destruct (find_id (S (length h)) h "leaders-updated" (CElem rt)) as [el|] eqn:Eel.
  2:{ repeat split; done. }
  split; [|split; [|split; [|split]]].
  - destruct (get_prop data "generated_at") as [v|]; [|done].
    destruct (truthy v); [|done]. destruct (text_of v); [|done].
    apply length_alter.
  - intros r Hne.
    destruct (get_prop data "generated_at") as [v|]; [|done].
    destruct (truthy v); [|done]. destruct (text_of v); [|done].
    apply list_lookup_alter_ne. congruence.
  - intros Hnone. discriminate Hnone.
  - intros fields -> Hfalsy. cbn [get_prop]. by rewrite Hfalsy.
  - intros fields el' e s -> [= <-] He Hs Hne. cbn [get_prop]. rewrite Hs.
    unfold default. cbn [from_option id truthy text_of to_string].
    assert (Hnonempty : String.eqb s "" = false) by (by apply String.eqb_neq).
    rewrite Hnonempty. cbn [negb fst snd heap]. split; [done|].
    unfold text_children. rewrite Hnonempty.
    assert (Hown : alter (with_children [CText s]) el h !! el
                   = Some (Element (tag e) (el_id e) (style e) [CText s]))
      by (by rewrite list_lookup_alter_eq, He).
    by rewrite (snap_leaf 0 _ el _ [TText s] Hown).
Qed.

(** X6. A feed that is the JSON value [null] makes the handler throw a
    TypeError on its first property read, before anything is written: the
    store is exactly as it was, whatever the page. *)
Theorem null_document_throws (d : dom) :
  then_handler (number := number) VNull d = (Throw TypeError, d) /\
  main (Document (number := number) VNull) d = catch_handler (number := number) TypeError d.
Proof.
  assert (Hrun : then_handler (number := number) VNull d = (Throw TypeError, d)).
  { destruct d as [h rt cs]. unfold then_handler. rewrite bind_cases.
    rewrite update_timestamp_cases. simpl get_prop.
    destruct (find_id (S (length h)) h "leaders-updated" (CElem rt)); [done|].
    unfold render_leaders.
    do 4 (erewrite bind_run by apply getElementById_run).
    by erewrite bind_throw. }
  split; [exact Hrun|].
  unfold main, catch. rewrite bind_cases. unfold fetch_json, ret. by rewrite Hrun.
Qed.

Lemma not_a_record_board b (data : value) :
  not_a_record data -> board_value b data = Ok (VArr []).
Proof. by destruct data, b. Qed.

(** X7. A feed that parses to a boolean, a number, a string or an array is
    read as a feed with no leaderboard: the handler completes, the timestamp
    is not touched, and every region that is found shows its header row and
    no body row. *)
Theorem non_record_document_renders_headers (data : value) (d : dom) :
  not_a_record data ->
  exists d',
    then_handler data d = (Ok tt, d') /\
    update_timestamp data d = (Ok tt, d) /\
    (forall b, board_value b data = Ok (VArr [])) /\
    (forall b div,
       region b d = Some div ->
       exists e,
         heap d !! div = Some e /\
         snap 5 (heap d') (CElem div)
         = Some (TElem (tag e) (el_id e) (style e) [table_tree (board_headers b) []])).
Proof.
  intros Hdata.
  assert (Hts : update_timestamp data d = (Ok tt, d)).
  { destruct d as [h rt cs]. rewrite update_timestamp_cases.
    destruct (find_id _ _ _ _); [|done]. by destruct data. }
  assert (Htexts : forall b, board_texts b data = Ok []).
  { intros b. unfold board_texts. by rewrite (not_a_record_board b data Hdata). }
  assert (Hfst : (then_handler data d).1 = Ok tt).
  { unfold then_handler. rewrite bind_cases, Hts.
    apply render_leaders_completes.
    - intros b. exists (VArr []). by apply not_a_record_board.
    - intros b div _. by exists []. }
  destruct (then_handler data d) as [[[]|] d'] eqn:Erun; [|done].
  exists d'. split; [done|]. split; [done|].
  split; [intros b; by apply not_a_record_board|].
  intros b div Hreg.
  destruct (then_handler_region data d d' b div Erun) as
    (e & rs & t & He & _ & Hrs & _ & _ & Hsnap); [by rewrite Hts|].
  rewrite Hts in He. rewrite Htexts in Hrs. injection Hrs as <-.
  by exists e.
Qed.

Lemma array_map_not_array {A} (v : value) (f : value -> nat -> outcome A) :
  (forall xs, v <> VArr xs) -> array_map v f = Throw TypeError.
Proof. intros Hne. destruct v; try done. by destruct (Hne xs). Qed.

(** X8. A leaderboard field that is present: a falsy value ([null],
    [false], the empty string, zero) counts as the empty array, so its
    section renders a header-only table; a truthy value that is not an array
    (a number, a string, [true], an object) is kept, and building its rows
    throws a TypeError because it has no [map]. *)
Theorem present_board_field (b : board) (fields inner : list (string * value)) (v : value) :
  obj_get (top_key b) fields = Some (VObj inner) ->
  obj_get (nested_key b) inner = Some v ->
  board_value b (VObj fields) = Ok (if truthy v then v else VArr []) /\
  (truthy v = false -> board_texts b (VObj fields) = Ok []) /\
  (truthy v = true -> (forall xs, v <> VArr xs) ->
   board_texts b (VObj fields) = Throw TypeError).
Proof.
  intros Htop Hnested.
  assert (Hval : board_value b (VObj fields) = Ok (if truthy v then v else VArr [])).
  { unfold board_value, leaderboard.
    destruct b; simpl in Htop, Hnested; simpl get_prop; rewrite Htop;
      unfold default; cbn [from_option id obind get_prop_opt get_prop];
      rewrite Hnested; reflexivity. }
  split; [exact Hval|]. unfold board_texts. rewrite Hval. split.
  - by intros ->.
  - intros -> Hne. cbn [obind]. by rewrite array_map_not_array.
Qed.

End Shapes.

(** ** Rows and records *)

Section Rows.
Context {number : Type} `{JSNumber number}.
Local Abbreviation value := (value number).

Ltac unfold_row Hrow :=
  repeat match type of Hrow with
         | obind ?m _ = Ok _ =>
             let E := fresh "E" in
             destruct m eqn:E; simpl in Hrow; [|discriminate Hrow]
         end.

Lemma board_row_length b (p : value) i row :
  board_row b p i = Ok row -> length row = length (board_headers b).
Proof.
  destruct b; simpl; intros Hrow.
  - unfold ppg_row in Hrow. unfold_row Hrow. by injection Hrow as <-.
  - unfold pts_row in Hrow. unfold_row Hrow. by injection Hrow as <-.
  - unfold threes_row in Hrow. unfold_row Hrow. by injection Hrow as <-.
  - unfold team_row in Hrow. unfold_row Hrow. by injection Hrow as <-.
Qed.

Lemma omap_lookup_Some {A B} (f : A -> outcome B) xs ys i x :
  omap f xs = Ok ys -> xs !! i = Some x ->
  exists y, ys !! i = Some y /\ f x = Ok y.
Proof.
  revert ys i. induction xs as [|x0 xs IH]; intros ys i; simpl; [done|].
  destruct (f x0) as [y0|] eqn:Ex; simpl; [|done].
  destruct (omap f xs) as [ys0|] eqn:Exs; simpl; [|done].
  intros [= <-]. destruct i as [|i]; simpl.
  - intros [= <-]. eauto.
  - intros Hi. by apply (IH ys0).
Qed.

Lemma map_from_lookup_Some {A} (f : value -> nat -> outcome A) xs : forall i ys k x,
  map_from f i xs = Ok ys -> xs !! k = Some x ->
  exists y, ys !! k = Some y /\ f x (i + k) = Ok y.
Proof.
  induction xs as [|x0 xs IH]; intros i ys k x; simpl; [done|].
  destruct (f x0 i) as [y0|] eqn:Ex; simpl; [|done].
  destruct (map_from f (S i) xs) as [ys0|] eqn:Exs; simpl; [|done].
  intros [= <-]. destruct k as [|k]; simpl.
  - intros [= <-]. rewrite Nat.add_0_r. eauto.
  - intros Hk. destruct (IH (S i) ys0 k x Exs Hk) as (y & Hy & Hf).
    exists y. split; [done|]. by replace (i + S k) with (S i + k) by lia.
Qed.

Lemma board_texts_inv b (data : value) rs :
  board_texts b data = Ok rs ->
  exists xs rows,
    board_value b data = Ok (VArr xs) /\
    map_from (board_row b) 0 xs = Ok rows /\
    omap (omap text_of) rows = Ok rs.
Proof.
  unfold board_texts. destruct (board_value b data) as [v|]; [|done]. cbn [obind].
  destruct v as [| | | | |xs|]; try done. simpl array_map.
  destruct (map_from (board_row b) 0 xs) as [rows|] eqn:Erows; [|done]. cbn [obind].
  intros Hrs. by exists xs, rows.
Qed.

(** X12. The tables the handler builds are never ragged: every row a
    leaderboard gives has exactly as many cells as the leaderboard has
    headers, six for points per game and five for the others, so in the
    rendered table every body row is as long as the header row. *)
Theorem rendered_rows_match_headers (b : board) (data : value) (rs : list (list string)) :
  board_texts b data = Ok rs ->
  length (board_headers b) = match b with PointsPerGame => 6 | _ => 5 end /\
  (forall texts, texts ∈ rs -> length texts = length (board_headers b)) /\
  (forall tr, tr ∈ body_rows (table_tree (board_headers b) rs) ->
     length (tree_kids tr) = length (header_cells (table_tree (board_headers b) rs))).
Proof.
  intros Hrs. destruct (board_texts_inv b data rs Hrs) as (xs & rows & _ & Hrows & Htexts).
  assert (Hlen : forall texts, texts ∈ rs -> length texts = length (board_headers b)).
  { intros texts Hin. apply list_elem_of_lookup in Hin as [k Hk].
    destruct (omap_lookup _ _ _ _ _ Htexts Hk) as (row & Hrow & Hconv).
    destruct (map_from_lookup _ _ _ _ _ _ Hrows Hrow) as (x & _ & Hbuild).
    rewrite (omap_length _ _ _ Hconv). by apply board_row_length in Hbuild. }
  split; [by destruct b|]. split; [exact Hlen|].
  intros tr. rewrite body_rows_table, header_cells_table, length_map.
  intros Hin. apply list_elem_of_fmap in Hin as (texts & -> & Hin).
  simpl. rewrite length_map. by apply Hlen.
Qed.

(** X13. The handler keeps the order and the number of the records of the
    feed: a leaderboard of [n] records gives [n] rows, and row [k] is built
    from record [k] and its index, from no other record. *)
Theorem rows_follow_records (b : board) (data : value) (xs : list value)
  (rs : list (list string)) :
  board_value b data = Ok (VArr xs) ->
  board_texts b data = Ok rs ->
  length rs = length xs /\
  (forall k x, xs !! k = Some x ->
     exists row texts,
       board_row b x k = Ok row /\
       omap text_of row = Ok texts /\
       rs !! k = Some texts).
Proof.
  intros Hval Hrs.
  destruct (board_texts_inv b data rs Hrs) as (xs' & rows & Hval' & Hrows & Htexts).
  rewrite Hval in Hval'. injection Hval' as <-. split.
  - rewrite (omap_length _ _ _ Htexts). by apply map_from_length in Hrows.
  - intros k x Hx.
    destruct (map_from_lookup_Some _ _ _ _ _ _ Hrows Hx) as (row & Hrow & Hbuild).
    destruct (omap_lookup_Some _ _ _ _ _ Htexts Hrow) as (texts & Htx & Hconv).
    by exists row, texts.
Qed.

(** X14. The rows of the points-per-game and team leaderboards need [ppg]
    to be a Number.  With a Number the cell is its [toFixed(1)] form followed
    by [ppg]; with anything else in a flat record, a numeric string
    included, or with no [ppg], building the row throws a TypeError. *)
Theorem ppg_must_be_a_number (fields : list (string * value)) (i : nat) :
  flat_record fields ->
  match obj_get "ppg" fields with
  | Some (VNum n) =>
      (exists row, ppg_row (VObj fields) i = Ok row /\
                   row !! 3 = Some (VStr (Number_toFixed n 1 +:+ " ppg"))) /\
      (exists row, team_row (VObj fields) i = Ok row /\
                   row !! 2 = Some (VStr (Number_toFixed n 1 +:+ " ppg")))
  | _ =>
      ppg_row (VObj fields) i = Throw TypeError /\
      team_row (VObj fields) i = Throw TypeError
  end.
Proof.
  intros Hflat.
  destruct (with_unit_member fields "pts" "pts" Hflat) as [spts Epts].
  destruct (with_unit_member fields "pts_for" "pts" Hflat) as [sfor Efor].
  destruct (with_unit_member fields "gp" "gp" Hflat) as [sgp Egp].
  unfold ppg_row, team_row. cbn [get_prop obind].
  destruct (obj_get "ppg" fields) as [v|]; [|done].
  change (default VUndefined (Some v)) with v.
  destruct v; try done.
  cbn [toFixed obind].
  change (with_unit (VStr (Number_toFixed n 1)) "ppg")
    with (Ok (VStr (number := number) (Number_toFixed n 1 +:+ " ppg"))).
  cbn [obind]. rewrite Epts, Efor, Egp. cbn [obind]. split; by eexists.
Qed.

(** X15. Elements of a leaderboard that are not records.  A [null] element
    makes every row builder throw.  A boolean, number, string or array
    element has no members: the total-points and three-pointers rows are
    built with [undefined] cells, the points-per-game and team rows
    throw. *)
Theorem rows_of_non_records (i : nat) :
  (forall b, board_row (number := number) b VNull i = Throw TypeError) /\
  (forall x : value, not_a_record x ->
     pts_row x i
     = Ok [rank i; VUndefined; VUndefined; VStr "undefined pts"; VStr "undefined gp"] /\
     threes_row x i
     = Ok [rank i; VUndefined; VUndefined; VUndefined; VStr "undefined gp"] /\
     ppg_row x i = Throw TypeError /\
     team_row x i = Throw TypeError).
Proof.
  split; [by intros []|].
  intros x Hx. by destruct x.
Qed.

(** X11. The table shown for a leaderboard depends on that leaderboard's
    value alone: two completed runs on documents that agree on it show the
    same table in its region, whatever the pages, the timestamps and the
    other leaderboards are.  In particular running the handler again on the
    page it has filled shows the same tables, one per region. *)
Theorem table_depends_on_its_board_only (b : board) (data1 data2 : value)
  (d1 d1' d2 d2' : dom) (div1 div2 : ref) :
  then_handler data1 d1 = (Ok tt, d1') ->
  then_handler data2 d2 = (Ok tt, d2') ->
  board_value b data1 = board_value b data2 ->
  region b (update_timestamp data1 d1).2 = Some div1 ->
  region b (update_timestamp data2 d2).2 = Some div2 ->
  exists table,
    tree_kids <$> snap 5 (heap d1') (CElem div1) = Some [table] /\
    tree_kids <$> snap 5 (heap d2') (CElem div2) = Some [table].
Proof.
  intros Hrun1 Hrun2 Hval Hreg1 Hreg2.
  destruct (then_handler_region data1 d1 d1' b div1 Hrun1 Hreg1)
    as (e1 & rs1 & t1 & _ & _ & Hrs1 & _ & _ & Hsnap1).
  destruct (then_handler_region data2 d2 d2' b div2 Hrun2 Hreg2)
    as (e2 & rs2 & t2 & _ & _ & Hrs2 & _ & _ & Hsnap2).
  assert (rs1 = rs2) as <-.
  { unfold board_texts in Hrs1, Hrs2. rewrite Hval in Hrs1. congruence. }
  exists (table_tree (board_headers b) rs1). by rewrite Hsnap1, Hsnap2.
Qed.

(** X16. A handler that completes has written to the timestamp element and
    to the regions it found, and to no other element of the page; it removes
    nothing from the store and leaves the console alone. *)
Theorem handler_writes_regions_only (data : value) (d d' : dom) :
  then_handler data d = (Ok tt, d') ->
  length (heap d) <= length (heap d') /\
  root d' = root d /\
  console d' = console d /\
  (forall r,
     r < length (heap d) ->
     updated_element d <> Some r ->
     (forall b, region b (update_timestamp data d).2 <> Some r) ->
     heap d' !! r = heap d !! r).
Proof.
  intros Hrun.
  destruct (keeps_env_then_handler data d) as [Hroot Hcons]. rewrite Hrun in Hroot, Hcons.
  apply then_handler_inv in Hrun as [_ Hrun].
  destruct d as [h rt cs]. unfold updated_element. cbn [heap root console] in *.
  assert (Hts : length (heap (update_timestamp data (Dom h rt cs)).2) = length h /\
                forall r, find_id (S (length h)) h "leaders-updated" (CElem rt) <> Some r ->
                          heap (update_timestamp data (Dom h rt cs)).2 !! r = h !! r).
  { rewrite update_timestamp_cases.
    destruct (find_id (S (length h)) h "leaders-updated" (CElem rt)) as [el|]; [|done].
    destruct (get_prop data "generated_at") as [v|]; [|done].
    destruct (truthy v); [|done]. destruct (text_of v); [|done].
    split; [apply length_alter|].
    intros r Hne. apply list_lookup_alter_ne. congruence. }
  destruct Hts as [Hlen Hother].
  destruct (update_timestamp data (Dom h rt cs)).2 as [h1 rt1 cs1] eqn:Ed1.
  cbn [heap] in *.
  assert (Hinv := Hrun). apply render_leaders_inv in Hinv as (rs & h' & _ & Hsteps & ->).
  cbn [heap root console] in *.
  split; [apply sec_steps_length in Hsteps; lia|]. split; [done|]. split; [done|].
  intros r Hr Hne Hreg.
  transitivity (h1 !! r); [|by apply Hother].
  apply (render_leaders_frame data h1 rt1 cs1 _ r Hrun); [lia|done].
Qed.

(** X17. On a feed whose [generated_at], when present, is a number or a
    string, and whose leaderboards are arrays of flat records, with a
    Number for [ppg] where it is formatted, the handler completes on every
    page, and every region it finds shows a table with one row per
    record. *)
Theorem well_formed_feed_renders_every_region (data : value) (d : dom) :
  well_formed_feed data ->
  exists d',
    then_handler data d = (Ok tt, d') /\
    (forall b div,
       region b (update_timestamp data d).2 = Some div ->
       exists e xs rs,
         heap (update_timestamp data d).2 !! div = Some e /\
         board_value b data = Ok (VArr xs) /\
         board_texts b data = Ok rs /\
         length rs = length xs /\
         snap 5 (heap d') (CElem div)
         = Some (TElem (tag e) (el_id e) (style e) [table_tree (board_headers b) rs])).
Proof.
  intros Hwf. assert (Hfst := then_handler_completes data d Hwf).
  destruct (then_handler data d) as [[[]|] d'] eqn:Erun; [|done].
  exists d'. split; [done|]. intros b div Hreg.
  destruct (then_handler_region data d d' b div Erun Hreg)
    as (e & rs & t & He & _ & Hrs & _ & _ & Hsnap).
  destruct (board_texts_inv b data rs Hrs) as (xs & rows & Hval & Hrows & Htexts).
  exists e, xs, rs. repeat split; try done.
  rewrite (omap_length _ _ _ Htexts). by apply map_from_length in Hrows.
Qed.

End Rows.

(** ** The order of the sections *)

Lemma bind_ret_unit (m : M unit) d : bind m (fun _ => ret tt) d = m d.
Proof. rewrite bind_cases. by destruct (m d) as [[[]|] d1]. Qed.

Lemma bind_ext {A B} (m : M A) (k k' : A -> M B) d :
  (forall a d1, k a d1 = k' a d1) -> bind m k d = bind m k' d.
Proof. intros Hk. rewrite !bind_cases. destruct (m d) as [[a|e] d1]; [apply Hk|done]. Qed.

Section Order.
Context {number : Type} `{JSNumber number}.
Local Abbreviation value := (value number).

Lemma boards_split b : boards = earlier b ++ b :: later b.
Proof. by destruct b. Qed.

Lemma elem_of_earlier b' b : b' ∈ earlier b <-> board_index b' < board_index b.
Proof.
  unfold earlier. rewrite elem_of_take. split.
  - intros (i & Hi & Hlt). destruct b'; repeat (destruct i as [|i]; try done);
      simpl; lia.
  - intros Hlt. exists (board_index b'). split; [by destruct b'|done].
Qed.

Lemma elem_of_later b' b : b' ∈ later b <-> board_index b < board_index b'.
Proof.
  unfold later. split.
  - intros Hin. apply list_elem_of_lookup in Hin as [i Hi].
    rewrite lookup_drop in Hi.
    destruct b'; repeat (destruct b; simpl in Hi; try done);
      repeat (destruct i as [|i]; try done); simpl; lia.
  - intros Hlt. apply list_elem_of_lookup.
    exists (board_index b' - S (board_index b)). rewrite lookup_drop.
    replace (S (board_index b) + (board_index b' - S (board_index b)))
      with (board_index b') by lia.
    by destruct b'.
Qed.

Lemma board_value_all b b' (data v : value) :
  board_value b data = Ok v -> exists v', board_value b' data = Ok v'.
Proof.
  unfold board_value, leaderboard. intros Hv.
  assert (Hdata : data <> VNull /\ data <> VUndefined).
  { split; intros ->; by destruct b. }
  assert (Hgen : forall top nested, exists v',
    (let? t := get_prop data top in
     let? w := get_prop_opt t nested in Ok (or_else w (VArr []))) = Ok v').
  { intros top nested. destruct Hdata as [Hn Hu].
    destruct data as [| | | | | |fields]; try done; simpl; eauto.
    destruct (default VUndefined (obj_get top fields)); simpl; eauto. }
  destruct b'; apply Hgen.
Qed.

(** The handler, once the leaderboards are read, is its four sections in
    order. *)
Lemma render_leaders_run_boards (data : value) (vals : board -> value) d :
  (forall b, board_value b data = Ok (vals b)) ->
  render_leaders data d = run_boards (fun b => region b d) vals boards d.
Proof.
  intros Hvals. destruct d as [h rt cs]. unfold render_leaders.
  do 4 (erewrite bind_run by apply getElementById_run).
  cbn [heap root]. unfold lift.
  assert (E1 := Hvals PointsPerGame). assert (E2 := Hvals PointsTotal).
  assert (E3 := Hvals ThreePointers). assert (E4 := Hvals TeamOffense).
  cbn [board_value] in E1, E2, E3, E4.
  erewrite bind_run by (by rewrite E1). erewrite bind_run by (by rewrite E2).
  erewrite bind_run by (by rewrite E3). erewrite bind_run by (by rewrite E4).
  unfold boards. cbn [run_boards render_board]. unfold region. cbn [heap root region_id].
  do 3 (apply bind_ext; intros _ ?).
  symmetry. apply bind_ret_unit.
Qed.

(** A section that cannot build its table has emptied its region and has
    at most added unreachable elements to the store. *)
Lemma render_board_fail b div (v : value) e h rt cs :
  div < length h ->
  section_texts b v = Throw e ->
  exists blk,
    render_board b (Some div) v (Dom h rt cs)
    = (Throw e, Dom (alter (with_children []) div h ++ blk) rt cs).
Proof.
  intros Hdiv Hfail. rewrite render_board_section. unfold section_texts in Hfail.
  destruct (array_map v (board_row b)) as [rows|e'] eqn:Erows.
  - cbn [obind] in Hfail. unfold render_section.
    erewrite bind_run by apply clear_innerHTML_run.
    erewrite bind_run by (unfold lift; by rewrite Erows).
    destruct (makeTable_frame (map VStr (board_headers b)) rows
                (alter (with_children []) div h) rt cs) as [blk Emk].
    unfold makeTable_outcome in Emk. rewrite omap_text_of_VStr, Hfail in Emk.
    exists blk. by erewrite bind_throw.
  - injection Hfail as ->. exists []. rewrite app_nil_r.
    by apply render_section_throw.
Qed.

Lemma render_board_step b div (v : value) h rt cs :
  (forall dd, div = Some dd -> dd < length h) ->
  (forall dd, div = Some dd -> exists rs, section_texts b v = Ok rs) ->
  exists h1,
    render_board b div v (Dom h rt cs) = (Ok tt, Dom h1 rt cs) /\
    sec_step (div, board_headers b, texts_shown b v) h h1.
Proof.
  intros Hlt Htexts. rewrite render_board_section. destruct div as [dd|].
  - destruct (Htexts dd eq_refl) as [rs Hrs].
    unfold texts_shown. rewrite Hrs. unfold section_texts in Hrs.
    destruct (array_map v (board_row b)) as [rows|] eqn:Erows; [|done].
    cbn [obind] in Hrs.
    rewrite (render_section_run dd v _ _ rows (board_headers b) rs);
      [|by apply Hlt|done|apply omap_text_of_VStr|done].
    eexists. split; reflexivity.
  - exists h. by rewrite render_section_None.
Qed.

(** Sections run until the first that fails: those before it are steps on
    the store, the failing one leaves its region empty, the rest do not
    run. *)
Lemma run_boards_stops (regs : board -> option ref) (vals : board -> value)
  b post div e rt cs : forall pre h,
  (forall b' dd, b' ∈ pre ++ [b] -> regs b' = Some dd -> dd < length h) ->
  (forall b' dd, b' ∈ pre -> regs b' = Some dd ->
                 exists rs, section_texts b' (vals b') = Ok rs) ->
  regs b = Some div ->
  section_texts b (vals b) = Throw e ->
  exists h1 blk,
    sec_steps (map (fun b' => (regs b', board_headers b', texts_shown b' (vals b'))) pre)
      h h1 /\
    run_boards regs vals (pre ++ b :: post) (Dom h rt cs)
    = (Throw e, Dom (alter (with_children []) div h1 ++ blk) rt cs).
Proof.
  induction pre as [|b0 pre IH]; intros h Hlt Hok Hreg Hfail.
  - destruct (render_board_fail b div (vals b) e h rt cs) as [blk Eb]; [|done|].
    { apply (Hlt b); [by apply list_elem_of_singleton|done]. }
    exists h, blk. split; [done|]. simpl. rewrite Hreg. by erewrite bind_throw.
  - destruct (render_board_step b0 (regs b0) (vals b0) h rt cs) as (hm & Erun & Hstep).
    { intros dd Hdd. apply (Hlt b0); [by left|done]. }
    { intros dd Hdd. apply (Hok b0 dd); [by left|done]. }
    destruct (IH hm) as (h1 & blk & Hsteps & Erest); [| |done|done|].
    + intros b' dd Hin Hdd. apply sec_step_length in Hstep.
      specialize (Hlt b' dd (list_elem_of_further _ _ _ Hin) Hdd). lia.
    + intros b' dd Hin. apply Hok. by right.
    + exists h1, blk. split.
      * simpl. exists hm. by split.
      * simpl. by erewrite bind_run by exact Erun.
Qed.

(** X18. The sections are rendered in a fixed order, points per game, total
    points, three-pointers, team offense, and rendering stops at the first
    section whose table cannot be built: the handler throws that section's
    error, the regions of the sections before it hold their tables, the
    region of the failing section has been emptied, and the regions of the
    sections after it are untouched. *)
Theorem rendering_stops_at_first_failure (data v : value) (d : dom) (b : board)
  (div : ref) (e : error) :
  board_value b data = Ok v ->
  region b d = Some div ->
  section_texts b v = Throw e ->
  (forall b' div', board_index b' < board_index b -> region b' d = Some div' ->
                   exists rs, board_texts b' data = Ok rs) ->
  exists d',
    render_leaders data d = (Throw e, d') /\
    (exists eb,
       heap d !! div = Some eb /\
       heap d' !! div = Some (Element (tag eb) (el_id eb) (style eb) [])) /\
    (forall b' div',
       board_index b' < board_index b -> region b' d = Some div' ->
       exists e' rs,
         heap d !! div' = Some e' /\
         board_texts b' data = Ok rs /\
         snap 5 (heap d') (CElem div')
         = Some (TElem (tag e') (el_id e') (style e') [table_tree (board_headers b') rs])) /\
    (forall b' div',
       board_index b < board_index b' -> region b' d = Some div' ->
       heap d' !! div' = heap d !! div').
Proof.
  intros Hval Hreg Hfail Hbefore.
  assert (Hvals : exists vals : board -> value, forall b', board_value b' data = Ok (vals b')).
  { destruct (board_value_all b PointsPerGame data v Hval) as [v1 E1].
    destruct (board_value_all b PointsTotal data v Hval) as [v2 E2].
    destruct (board_value_all b ThreePointers data v Hval) as [v3 E3].
    destruct (board_value_all b TeamOffense data v Hval) as [v4 E4].
    exists (fun b' => match b' with
                      | PointsPerGame => v1 | PointsTotal => v2
                      | ThreePointers => v3 | TeamOffense => v4 end).
    by intros []. }
  destruct Hvals as [vals Hvals].
  assert (Hv : vals b = v) by (specialize (Hvals b); congruence).
  assert (Htexts : forall b', board_texts b' data = section_texts b' (vals b')).
  { intros b'. unfold board_texts. by rewrite Hvals. }
  destruct d as [h rt cs].
  rewrite (render_leaders_run_boards data vals _ Hvals), (boards_split b).
  set (regs := fun b' => region b' (Dom h rt cs)).
  destruct (run_boards_stops regs vals b (later b) div e rt cs (earlier b) h)
    as (h1 & blk & Hsteps & Erun).
  { intros b' dd _ Hdd. by apply region_lt in Hdd. }
  { intros b' dd Hin Hdd. rewrite <- Htexts. apply (Hbefore b' dd); [|done].
    by apply elem_of_earlier. }
  { done. }
  { by rewrite Hv. }
  set (steps := map _ (earlier b)) in Hsteps.
  assert (Hlen : length h <= length h1) by (by apply sec_steps_length in Hsteps).
  assert (Hnot_earlier : forall r b', region b' (Dom h rt cs) = Some r ->
            ~ board_index b' < board_index b ->
            forall step, step ∈ steps -> step.1.1 <> Some r).
  { intros r b' Hr Hnlt step Hin Hstep. unfold steps in Hin.
    apply list_elem_of_fmap in Hin as (b0 & -> & Hin0). simpl in Hstep.
    apply elem_of_earlier in Hin0.
    assert (b0 = b') by (by apply (region_distinct b0 b' (Dom h rt cs) r)).
    subst b0. lia. }
  eexists. split; [exact Erun|]. cbn [heap].
  destruct (region_el_id b _ div Hreg) as (eb & Heb & _). cbn [heap] in Heb.
  assert (Hdiv_lt : div < length h) by (by apply lookup_lt_Some in Heb).
  split; [|split].
  - exists eb. split; [done|].
    rewrite lookup_app_l by (rewrite length_alter; lia).
    rewrite list_lookup_alter_eq.
    rewrite (sec_steps_frame steps h h1 div Hsteps Hdiv_lt); [by rewrite Heb|].
    apply (Hnot_earlier div b Hreg). lia.
  - intros b' div' Hlt Hreg'.
    destruct (region_el_id b' _ div' Hreg') as (e' & He' & _). cbn [heap] in He'.
    destruct (Hbefore b' div' Hlt Hreg') as [rs Hrs].
    assert (Hshown : texts_shown b' (vals b') = rs).
    { unfold texts_shown. by rewrite <- Htexts, Hrs. }
    assert (Hidx : steps !! board_index b'
                   = Some (Some div', board_headers b', texts_shown b' (vals b'))).
    { unfold steps. rewrite list_lookup_fmap. unfold earlier.
      rewrite lookup_take_lt by done.
      replace (boards !! board_index b') with (Some b') by (by destruct b').
      simpl. unfold regs. by rewrite Hreg'. }
    destruct (sec_steps_region steps h h1 (length h) (board_index b') div'
                (board_headers b') (texts_shown b' (vals b')) e' Hsteps Hidx)
      as (t & Hown & Hle & Hblk); [| |done|done|].
    { intros j step Hj Hne Hstep. unfold steps in Hj.
      rewrite list_lookup_fmap in Hj.
      destruct (earlier b !! j) as [b0|] eqn:Eb0; [|done].
      simpl in Hj. injection Hj as <-. simpl in Hstep.
      assert (b0 = b') by (by apply (region_distinct b0 b' (Dom h rt cs) div')).
      subst b0. apply Hne. unfold earlier in Eb0.
      apply lookup_take_Some in Eb0 as [Eb0 _].
      unfold boards in Eb0. destruct b'; repeat (destruct j as [|j]; try done). }
    { intros step d0 Hin Hd0. unfold steps in Hin.
      apply list_elem_of_fmap in Hin as (b0 & -> & _). simpl in Hd0.
      by apply region_lt in Hd0. }
    exists e', rs. split; [done|]. split; [done|]. rewrite <- Hshown.
    assert (Hne : div' <> div).
    { intros ->. assert (b' = b) by (by apply (region_distinct b' b (Dom h rt cs) div)).
      subst b'. lia. }
    apply (snap_region _ _ _ t).
    + rewrite lookup_app_l by (rewrite length_alter; by apply lookup_lt_Some in Hown).
      by rewrite list_lookup_alter_ne.
    + intros k el Hk. specialize (Hblk k el Hk).
      rewrite lookup_app_l by (rewrite length_alter; by apply lookup_lt_Some in Hblk).
      rewrite list_lookup_alter_ne by lia. done.
  - intros b' div' Hlt Hreg'.
    assert (Hdiv' : div' < length h) by (apply region_lt in Hreg'; done).
    assert (Hne : div' <> div).
    { intros ->. assert (b' = b) by (by apply (region_distinct b' b (Dom h rt cs) div)).
      subst b'. lia. }
    rewrite lookup_app_l by (rewrite length_alter; lia).
    rewrite list_lookup_alter_ne by done.
    apply (sec_steps_frame steps h h1 div' Hsteps Hdiv').
    apply (Hnot_earlier div' b' Hreg'). lia.
Qed.

End Order.

Section NoContainer.
Context {number : Type} `{JSNumber number}.
Local Abbreviation value := (value number).

(** X19. On a page without the container, a failed fetch or parse shows
    nothing: the rejection handler logs the error and leaves every element
    of the page as it was, the regions with whatever they held. *)
Theorem failure_without_container_changes_nothing (r : response) (d : dom) :
  r = NetworkFailure \/ r = BadJSON ->
  container_element d = None ->
  (main r d).1 = Ok tt /\
  heap (main r d).2 = heap d /\
  root (main r d).2 = root d /\
  exists e, console (main r d).2 = console d ++ [("Error loading leaders:", e)].
Proof.
  intros Hr Hnone. destruct (main_failure r d Hr) as [err Hmain].
  rewrite Hmain, catch_handler_cases, Hnone. cbn [fst snd heap root console].
  repeat split. by exists err.
Qed.

End NoContainer.

(** * The further properties on concrete inputs *)

Lemma makeTable_builds_styled_table_witness :
  (makeTable primitive_headers primitive_rows demo_page).1 = Ok 7 /\
  exists hs rs,
    omap text_of primitive_headers = Ok hs /\
    omap (omap text_of) primitive_rows = Ok rs /\
    hs = ["a"; ""] /\ rs = [["true"; ""; "3"]; []; [""]] /\
    length (heap (makeTable primitive_headers primitive_rows demo_page).2) = 7 + 4 + 2 + 3 + 4.
Proof.
  assert (Hrun : makeTable primitive_headers primitive_rows demo_page
                 = (Ok 7, (makeTable primitive_headers primitive_rows demo_page).2))
    by (vm_compute; reflexivity).
  split; [vm_compute; reflexivity|].
  destruct (makeTable_builds_styled_table primitive_headers primitive_rows demo_page _ 7 Hrun)
    as (hs & rs & Hhs & Hrs & _ & Hlen).
  exists hs, rs. split; [exact Hhs|]. split; [exact Hrs|].
  vm_compute in Hhs. injection Hhs as <-. vm_compute in Hrs. injection Hrs as <-.
  split; [reflexivity|]. split; [reflexivity|]. exact Hlen.
Defined.

Lemma makeTable_primitive_cells_witness :
  forallb primitive primitive_headers = true /\
  forallb (forallb primitive) primitive_rows = true /\
  (makeTable primitive_headers primitive_rows demo_page).1 = Ok 7.
Proof.
  split; [reflexivity|]. split; [reflexivity|].
  apply (makeTable_primitive_cells primitive_headers primitive_rows demo_page);
    reflexivity.
Defined.

(** A cell that is an object with a [toString] member of its own makes the
    call throw, and the page is as it was. *)
Lemma makeTable_trap_cell_throws :
  (makeTable [VStr "a"] [[VNum 1%Z; trap_cell]] demo_page).1 = Throw TypeError /\
  take 7 (heap (makeTable [VStr "a"] [[VNum 1%Z; trap_cell]] demo_page).2)
  = heap demo_page.
Proof. split; vm_compute; reflexivity. Qed.

Lemma non_record_document_renders_headers_witness :
  not_a_record (VArr [VNum 1%Z]) /\
  exists d',
    then_handler (VArr [VNum 1%Z]) demo_page = (Ok tt, d') /\
    snap 5 (heap d') (CElem 4)
    = Some (TElem "div" (Some "leaders-pts") []
              [table_tree ["#"; "Player"; "Team"; "Total Pts"; "GP"] []]).
Proof.
  assert (Hnr : not_a_record (VArr [VNum 1%Z])) by exact I.
  split; [exact Hnr|].
  destruct (non_record_document_renders_headers (VArr [VNum 1%Z]) demo_page Hnr)
    as (d' & Hrun & _ & _ & Hregions).
  exists d'. split; [exact Hrun|].
  destruct (Hregions PointsTotal 4) as (e & He & Hsnap); [vm_compute; reflexivity|].
  vm_compute in He. injection He as <-. exact Hsnap.
Defined.

Lemma present_board_field_witness :
  obj_get (top_key PointsTotal) doc_string_board
  = Some (VObj [("points_total", VStr "oops")]) /\
  board_value PointsTotal (VObj doc_string_board) = Ok (VStr "oops") /\
  board_texts PointsTotal (VObj doc_string_board) = Throw TypeError.
Proof.
  assert (Htop : obj_get (top_key PointsTotal) doc_string_board
                 = Some (VObj [("points_total", VStr "oops")])) by reflexivity.
  assert (Hnested : obj_get (nested_key PointsTotal) [("points_total", VStr "oops")]
                    = Some (VStr (number := Z) "oops")) by reflexivity.
  split; [exact Htop|].
  destruct (present_board_field PointsTotal doc_string_board _ _ Htop Hnested)
    as (Hval & _ & Hthrow).
  split; [exact Hval|]. apply Hthrow; [reflexivity|]. intros xs Hxs. discriminate Hxs.
Defined.

Lemma handler_failure_shows_message_witness :
  (then_handler doc_record_without_ppg demo_page).1 = Throw TypeError /\
  (main (Document doc_record_without_ppg) demo_page).1 = Ok tt /\
  snap 1 (heap (main (Document doc_record_without_ppg) demo_page).2) (CElem 2)
  = Some (TElem "div" (Some "leaders-container") [] [TText error_message]).
Proof.
  assert (Hrun : then_handler doc_record_without_ppg demo_page
                 = (Throw TypeError, (then_handler doc_record_without_ppg demo_page).2))
    by (vm_compute; reflexivity).
  split; [vm_compute; reflexivity|].
  destruct (handler_failure_shows_message doc_record_without_ppg demo_page _ TypeError Hrun)
    as (Hok & _ & _ & Hsnap & _).
  split; [exact Hok|].
  apply (Hsnap 2 (Element "div" (Some "leaders-container") []
                    [CElem 3; CElem 4; CElem 5; CElem 6])); vm_compute; reflexivity.
Defined.

Lemma table_depends_on_its_board_only_witness :
  board_value PointsPerGame demo_doc = board_value PointsPerGame (VObj doc_without_teams) /\
  exists table,
    tree_kids <$> snap 5 (heap (then_handler demo_doc demo_page).2) (CElem 3)
    = Some [table] /\
    tree_kids <$> snap 5 (heap (then_handler (VObj doc_without_teams)
                                  page_without_threes).2) (CElem 3)
    = Some [table].
Proof.
  assert (Hval : board_value PointsPerGame demo_doc
                 = board_value PointsPerGame (VObj doc_without_teams)) by reflexivity.
  split; [exact Hval|].
  apply (table_depends_on_its_board_only PointsPerGame demo_doc (VObj doc_without_teams)
           demo_page _ page_without_threes _ 3 3);
    [vm_compute; reflexivity|vm_compute; reflexivity|exact Hval
    |vm_compute; reflexivity|vm_compute; reflexivity].
Defined.

Lemma rendered_rows_match_headers_witness :
  board_texts PointsPerGame demo_doc
  = Ok [["1"; "A. Example"; "XYZ"; "23.0 ppg"; "812 pts"; "35 gp"];
        ["2"; "B. Sample"; "ABC"; "21.0 ppg"; "630 pts"; "30 gp"]] /\
  forall texts,
    texts ∈ [["1"; "A. Example"; "XYZ"; "23.0 ppg"; "812 pts"; "35 gp"];
             ["2"; "B. Sample"; "ABC"; "21.0 ppg"; "630 pts"; "30 gp"]] ->
    length texts = 6.
Proof.
  assert (Hrs : board_texts PointsPerGame demo_doc
    = Ok [["1"; "A. Example"; "XYZ"; "23.0 ppg"; "812 pts"; "35 gp"];
          ["2"; "B. Sample"; "ABC"; "21.0 ppg"; "630 pts"; "30 gp"]])
    by (vm_compute; reflexivity).
  split; [exact Hrs|].
  destruct (rendered_rows_match_headers PointsPerGame demo_doc _ Hrs) as (_ & Hlen & _).
  exact Hlen.
Defined.

Lemma rows_follow_records_witness :
  board_value ThreePointers demo_doc = Ok (VArr [VObj player_b; VObj player_a]) /\
  board_texts ThreePointers demo_doc
  = Ok [["1"; "B. Sample"; "ABC"; "95"; "30 gp"];
        ["2"; "A. Example"; "XYZ"; "70"; "35 gp"]] /\
  exists row texts,
    threes_row (VObj player_a) 1 = Ok row /\
    omap text_of row = Ok texts /\
    texts = ["2"; "A. Example"; "XYZ"; "70"; "35 gp"].
Proof.
  assert (Hval : board_value ThreePointers demo_doc
                 = Ok (VArr [VObj player_b; VObj player_a])) by reflexivity.
  assert (Hrs : board_texts ThreePointers demo_doc
                = Ok [["1"; "B. Sample"; "ABC"; "95"; "30 gp"];
                      ["2"; "A. Example"; "XYZ"; "70"; "35 gp"]])
    by (vm_compute; reflexivity).
  split; [exact Hval|]. split; [exact Hrs|].
  destruct (rows_follow_records ThreePointers demo_doc _ _ Hval Hrs) as [_ Hrows].
  destruct (Hrows 1 (VObj player_a) eq_refl) as (row & texts & Hrow & Hconv & Hk).
  exists row, texts. split; [exact Hrow|]. split; [exact Hconv|].
  simpl in Hk. by injection Hk as <-.
Defined.

Lemma ppg_must_be_a_number_witness :
  flat_record record_string_ppg /\
  ppg_row (VObj record_string_ppg) 0 = Throw TypeError /\
  team_row (VObj record_string_ppg) 0 = Throw TypeError.
Proof.
  assert (Hflat : flat_record record_string_ppg).
  { apply flat_record_Forall. unfold record_string_ppg.
    repeat (apply Forall_cons_2; [simpl; by eexists (SStr _)|]). apply Forall_nil_2. }
  split; [exact Hflat|].
  exact (ppg_must_be_a_number record_string_ppg 0 Hflat).
Defined.

Lemma handler_writes_regions_only_witness :
  (then_handler demo_doc demo_page).1 = Ok tt /\
  heap (then_handler demo_doc demo_page).2 !! 0 = heap demo_page !! 0 /\
  heap (then_handler demo_doc demo_page).2 !! 2 = heap demo_page !! 2 /\
  console (then_handler demo_doc demo_page).2 = [].
Proof.
  assert (Hrun : then_handler demo_doc demo_page
                 = (Ok tt, (then_handler demo_doc demo_page).2))
    by (vm_compute; reflexivity).
  split; [vm_compute; reflexivity|].
  destruct (handler_writes_regions_only demo_doc demo_page _ Hrun)
    as (_ & _ & Hcons & Hframe).
  split; [|split; [|exact Hcons]].
  - apply Hframe; [vm_compute; lia|vm_compute; discriminate|].
    intros b. destruct b; vm_compute; discriminate.
  - apply Hframe; [vm_compute; lia|vm_compute; discriminate|].
    intros b. destruct b; vm_compute; discriminate.
Defined.

Lemma well_formed_feed_renders_every_region_witness :
  well_formed_feed demo_doc /\
  exists d',
    then_handler demo_doc page_without_threes = (Ok tt, d') /\
    snap 5 (heap d') (CElem 5)
    = Some (TElem "div" (Some "leaders-teams") []
              [table_tree ["#"; "Team"; "PPG"; "Total Pts"; "GP"]
                 [["1"; "XYZ"; "88.0 ppg"; "3080 pts"; "35 gp"]]]).
Proof.
  split; [exact demo_doc_well_formed|].
  destruct (well_formed_feed_renders_every_region demo_doc page_without_threes
              demo_doc_well_formed) as (d' & Hrun & Hregions).
  exists d'. split; [exact Hrun|].
  destruct (Hregions TeamOffense 5) as (e & xs & rs & He & _ & Hrs & _ & Hsnap);
    [vm_compute; reflexivity|].
  vm_compute in He. injection He as <-.
  vm_compute in Hrs. injection Hrs as <-. exact Hsnap.
Defined.

Lemma rendering_stops_at_first_failure_witness :
  board_value TeamOffense doc_bad_team = Ok bad_team_board /\
  region TeamOffense demo_page = Some 6 /\
  section_texts TeamOffense bad_team_board = Throw TypeError /\
  exists d',
    render_leaders doc_bad_team demo_page = (Throw TypeError, d') /\
    heap d' !! 6 = Some (Element "div" (Some "leaders-teams") [] []) /\
    snap 5 (heap d') (CElem 5)
    = Some (TElem "div" (Some "leaders-threes") []
              [table_tree ["#"; "Player"; "Team"; "3PM"; "GP"]
                 [["1"; "B. Sample"; "ABC"; "95"; "30 gp"];
                  ["2"; "A. Example"; "XYZ"; "70"; "35 gp"]]]).
Proof.
  assert (Hval : board_value TeamOffense doc_bad_team = Ok bad_team_board) by reflexivity.
  assert (Hreg : region TeamOffense demo_page = Some 6) by (vm_compute; reflexivity).
  assert (Hfail : section_texts TeamOffense bad_team_board = Throw TypeError)
    by (vm_compute; reflexivity).
  split; [exact Hval|]. split; [exact Hreg|]. split; [exact Hfail|].
  destruct (rendering_stops_at_first_failure doc_bad_team bad_team_board demo_page
              TeamOffense 6 TypeError Hval Hreg Hfail)
    as (d' & Hrun & (eb & Heb & Hdiv) & Hbefore & _).
  { intros b' div' Hlt _.
    destruct b'; [eexists; vm_compute; reflexivity ..|simpl in Hlt; lia]. }
  exists d'. split; [exact Hrun|].
  vm_compute in Heb. injection Heb as <-. split; [exact Hdiv|].
  destruct (Hbefore ThreePointers 5) as (e' & rs & He' & Hrs & Hsnap);
    [simpl; lia|vm_compute; reflexivity|].
  vm_compute in He'. injection He' as <-.
  vm_compute in Hrs. injection Hrs as <-. exact Hsnap.
Defined.

Lemma failure_without_container_changes_nothing_witness :
  container_element page_without_container = None /\
  (main (number := Z) NetworkFailure page_without_container).1 = Ok tt /\
  heap (main (number := Z) NetworkFailure page_without_container).2
  = heap page_without_container.
Proof.
  assert (Hnone : container_element page_without_container = None)
    by (vm_compute; reflexivity).
  split; [exact Hnone|].
  destruct (failure_without_container_changes_nothing (number := Z) NetworkFailure
              page_without_container (or_introl eq_refl) Hnone) as (Hok & Hheap & _).
  split; [exact Hok|exact Hheap].
Defined.

(** * Runs that leave a region without its table *)


(** C8 as the specification states it fails when the fetch and the parse
    succeed, the team region is on the page and the team record lacks [ppg]: the region is emptied, the row builder throws,
    and the region ends with no child, not with a table. *)
Lemma present_region_left_empty :
  region TeamOffense (update_timestamp doc_bad_team demo_page).2 = Some 6 /\
  heap demo_page !! 6 = Some (Element "div" (Some "leaders-teams") [] [CText "Loading"]) /\
  (then_handler doc_bad_team demo_page).1 = Throw TypeError /\
  heap (then_handler doc_bad_team demo_page).2 !! 6
  = Some (Element "div" (Some "leaders-teams") [] []) /\
  (main (Document doc_bad_team) demo_page).1 = Ok tt /\
  heap (main (Document doc_bad_team) demo_page).2 !! 6
  = Some (Element "div" (Some "leaders-teams") [] []).
Proof. repeat split; vm_compute; reflexivity. Qed.


(** C6 as the specification states it fails on a page whose regions sit
    beside the container: a failed parse puts the message in the container
    and leaves the four regions in the document, each with the content it
    had. *)
Lemma regions_beside_container_survive :
  container_element page_regions_beside = Some 2 /\
  (main (number := Z) BadJSON page_regions_beside).1 = Ok tt /\
  heap (main (number := Z) BadJSON page_regions_beside).2 !! 2
  = Some (Element "div" (Some "leaders-container") [] [CText error_message]) /\
  (forall b, exists r,
     region b page_regions_beside = Some r /\
     region b (main (number := Z) BadJSON page_regions_beside).2 = Some r /\
     heap (main (number := Z) BadJSON page_regions_beside).2 !! r
     = Some (Element "div" (Some (region_id b)) [] [CText "Loading"])).
Proof.
  repeat split; try (vm_compute; reflexivity).
  intros b. exists (3 + board_index b).
  destruct b; repeat split; vm_compute; reflexivity.
Qed.
